(** * vcardai: business-card extraction and vCard generation

    A shallow embedding of the Python sources

      - [src/backend/app.py]      (the FastAPI application),
      - [src/api/upload.py]       (the serverless upload handler),
      - [src/api/generate-vcf.py] (the serverless vCard handler),

    followed by the properties of the specification that were checked
    against them.

    Conventions of the embedding.

    - A Python [str] is a [string]; each character stands for one code point
      below 256.  On that range [str.strip], [str.lower], [str.split],
      [str.replace] and [str.startswith] are written out below exactly as
      CPython computes them.
    - A value produced by [json.loads] is a [pyval]; a [dict] is an
      association list in insertion order whose lookup takes the first
      binding of a key.
    - A Python exception is an [exn] carried by [outcome]; code that calls
      out of the process runs in the monad [M], which threads the trace of
      observable events.
    - Libraries that are not part of the repository ([phonenumbers], [json],
      string formatting of non-string values) are the fields of the class
      [Externals]; PIL and the model provider are the fields of [World];
      the Latin-1 encoding of header text by the HTTP layer is the field
      of [Wire]. *)

From Stdlib Require Import List String Ascii Bool Arith ZArith Lia Permutation.
From Stdlib Require Import Floats.SpecFloat.
Import ListNotations.
Open Scope list_scope.
Open Scope string_scope.
Set Warnings "-register-all".

(* ================================================================= *)
(** ** Python string operations *)

Module PyStr.

(** [str.isspace] on one code point below 256: TAB..CR, FS..US, space,
    NEL (0x85) and NBSP (0xA0). *)
Definition is_space (c : ascii) : bool :=
  let n := nat_of_ascii c in
  (((9 <=? n) && (n <=? 13)) || ((28 <=? n) && (n <=? 32))
   || (n =? 133) || (n =? 160))%nat.

(** [str.lower] on one code point below 256: A..Z and the Latin-1 capitals
    0xC0..0xDE (except the multiplication sign 0xD7) move up by 32. *)
Definition lower_char (c : ascii) : ascii :=
  let n := nat_of_ascii c in
  if (((65 <=? n) && (n <=? 90))
      || ((192 <=? n) && (n <=? 222) && negb (n =? 215)))%nat
  then ascii_of_nat (n + 32) else c.

Fixpoint lower (s : string) : string :=
  match s with
  | EmptyString => EmptyString
  | String c s' => String (lower_char c) (lower s')
  end.

Fixpoint lstrip_by (p : ascii -> bool) (s : string) : string :=
  match s with
  | EmptyString => EmptyString
  | String c s' => if p c then lstrip_by p s' else s
  end.

Fixpoint rstrip_by (p : ascii -> bool) (s : string) : string :=
  match s with
  | EmptyString => EmptyString
  | String c s' =>
      match rstrip_by p s' with
      | EmptyString => if p c then EmptyString else String c EmptyString
      | r => String c r
      end
  end.

(** Every character of [s] satisfies [p]. *)
Fixpoint all_chars (p : ascii -> bool) (s : string) : bool :=
  match s with
  | EmptyString => true
  | String c s' => p c && all_chars p s'
  end.

Definition strip_by (p : ascii -> bool) (s : string) : string :=
  rstrip_by p (lstrip_by p s).

(** [s.strip()] *)
Definition strip (s : string) : string := strip_by is_space s.

Fixpoint mem_char (c : ascii) (chars : string) : bool :=
  match chars with
  | EmptyString => false
  | String d chars' => Ascii.eqb c d || mem_char c chars'
  end.

(** [s.strip(chars)]: leading and trailing characters that belong to
    [chars] are removed; characters inside the text stay. *)
Definition strip_chars (chars : string) (s : string) : string :=
  strip_by (fun c => mem_char c chars) s.

(** [s.startswith(p)] *)
Definition startswith (s p : string) : bool := String.prefix p s.

(** [sub in s] *)
Fixpoint contains (sub s : string) : bool :=
  String.prefix sub s ||
  match s with
  | EmptyString => false
  | String _ s' => contains sub s'
  end.

Definition cons_head (c : ascii) (l : list string) : list string :=
  match l with
  | [] => [String c EmptyString]
  | h :: t => String c h :: t
  end.

Definition can_split (maxsplit : option nat) : bool :=
  match maxsplit with
  | Some 0 => false
  | _ => true
  end.

Definition dec_split (maxsplit : option nat) : option nat :=
  match maxsplit with
  | Some n => Some (Nat.pred n)
  | None => None
  end.

(** The scan of [s.split(sep, maxsplit)] for a non-empty [sep]: left to
    right, cutting at every occurrence of [sep] while cuts remain and
    resuming after it ([skip] counts the characters of the occurrence that
    are still to be passed over). *)
Fixpoint split_from (sep : string) (maxsplit : option nat) (skip : nat)
         (s : string) : list string :=
  match s with
  | EmptyString => [EmptyString]
  | String c s' =>
      match skip with
      | S k => split_from sep maxsplit k s'
      | O =>
          if can_split maxsplit && String.prefix sep s
          then EmptyString
                 :: split_from sep (dec_split maxsplit) (String.length sep - 1) s'
          else cons_head c (split_from sep maxsplit 0 s')
      end
  end.

(** [s.split(sep)] and [s.split(sep, n)]; [sep] is never empty in the
    sources (Python raises [ValueError] there). *)
Definition split (sep : string) (maxsplit : option nat) (s : string)
  : list string :=
  split_from sep maxsplit 0 s.

(** [s.replace(old, new)] for one-character [old] and [new]. *)
Fixpoint replace_char (old new : ascii) (s : string) : string :=
  match s with
  | EmptyString => EmptyString
  | String c s' =>
      String (if Ascii.eqb c old then new else c) (replace_char old new s')
  end.

(** [sep.join(lines)] *)
Definition join (sep : string) (lines : list string) : string :=
  String.concat sep lines.

(** The newline, the double quote and the backtick as one-character
    strings. *)
Definition nl : string := String (ascii_of_nat 10) EmptyString.
Definition dq : string := String (ascii_of_nat 34) EmptyString.
Definition backtick : string := String (ascii_of_nat 96) EmptyString.
Definition fence : string := backtick ++ backtick ++ backtick.

End PyStr.
Import PyStr.

(* ================================================================= *)
(** ** Python values, exceptions and dictionaries *)

(** What [json.loads] and [request.json()] can return. *)
Inductive pyval : Type :=
| PNone
| PBool (b : bool)
| PInt (z : Z)
| PFloat (f : spec_float)
| PStr (s : string)
| PList (l : list pyval)
| PDict (d : list (string * pyval)).

Definition dict : Type := list (string * pyval).

(** The exceptions the modelled code can meet. *)
Inductive exn : Type :=
| JSONDecodeError                 (* json.loads on text that is not JSON *)
| AttributeError (attr : string)  (* the value has no attribute [attr] *)
| TypeError                       (* the value is not iterable *)
| ServiceError (msg : string)     (* raised by PIL or by the model client *)
| OpenAIAPIError (cause : exn)    (* Exception(f"OpenAI API error: {cause}") *)
| UnicodeEncodeError.             (* str.encode on a code point the codec lacks *)

Inductive outcome (A : Type) : Type :=
| Returns (a : A)
| Raises (e : exn).
Arguments Returns {A} a.
Arguments Raises {A} e.

Definition obind {A B} (m : outcome A) (k : A -> outcome B) : outcome B :=
  match m with
  | Returns a => k a
  | Raises e => Raises e
  end.

Notation "x <-- m ;; k" := (obind m (fun x => k))
  (at level 61, m at next level, right associativity).

(** [bool(v)] *)
Definition truthy (v : pyval) : bool :=
  match v with
  | PNone => false
  | PBool b => b
  | PInt z => negb (Z.eqb z 0)
  | PFloat (S754_zero _) => false
  | PFloat _ => true
  | PStr EmptyString => false
  | PStr _ => true
  | PList [] => false
  | PList _ => true
  | PDict [] => false
  | PDict _ => true
  end.

(** [d.get(k)]: [None] stands for a missing key. *)
Fixpoint dict_get (k : string) (d : dict) : option pyval :=
  match d with
  | [] => None
  | (k', v) :: d' => if String.eqb k k' then Some v else dict_get k d'
  end.

(** [d.get(k, default)] *)
Definition dict_get_default (k : string) (default : pyval) (d : dict) : pyval :=
  match dict_get k d with
  | Some v => v
  | None => default
  end.

(** [if x := d.get(k):] binds [x] when the value is there and truthy. *)
Definition get_truthy (k : string) (d : dict) : option pyval :=
  match dict_get k d with
  | Some v => if truthy v then Some v else None
  | None => None
  end.

(** The dictionary without the key [k]. *)
Definition dict_remove (k : string) (d : dict) : dict :=
  filter (fun kv => negb (String.eqb k (fst kv))) d.

(** [d[k] = v] *)
Fixpoint dict_set (k : string) (v : pyval) (d : dict) : dict :=
  match d with
  | [] => [(k, v)]
  | (k', v') :: d' =>
      if String.eqb k k' then (k, v) :: d' else (k', v') :: dict_set k v d'
  end.

Fixpoint chars_of (s : string) : list pyval :=
  match s with
  | EmptyString => []
  | String c s' => PStr (String c EmptyString) :: chars_of s'
  end.

(** [for x in v]: a list yields its elements, a string its characters, a
    dictionary its keys; anything else is not iterable. *)
Definition py_iter (v : pyval) : outcome (list pyval) :=
  match v with
  | PList l => Returns l
  | PStr s => Returns (chars_of s)
  | PDict d => Returns (map (fun kv => PStr (fst kv)) d)
  | _ => Raises TypeError
  end.

(* ================================================================= *)
(** ** Libraries outside the repository *)

(** [phonenumbers.PhoneNumberFormat] *)
Inductive PhoneNumberFormat : Type := E164 | INTERNATIONAL | NATIONAL | RFC3966.

(** The library calls of the sources.  [phonenumbers_parse] returns [None]
    where [phonenumbers.parse] raises; [json_loads] returns [None] where
    [json.loads] raises [JSONDecodeError]; [format_value] is what an
    f-string prints for a value that is not a [str]. *)
Class Externals : Type := {
  PhoneNumber : Type;
  phonenumbers_parse : pyval -> string -> option PhoneNumber;
  phonenumbers_is_valid_number : PhoneNumber -> bool;
  phonenumbers_format_number : PhoneNumber -> PhoneNumberFormat -> string;
  json_loads : string -> option pyval;
  format_value : pyval -> string
}.

(* ================================================================= *)
(** ** Phone normalizer and serializer
    ([normalize_phone_numbers] and [create_vcf_content], word for word the
    same in [src/backend/app.py] and [src/api/generate-vcf.py]) *)

(** [lines.append(x)] *)
Definition list_append {A : Type} (l : list A) (x : A) : list A :=
  (l ++ [x])%list.

Section Serializer.
Context {E : Externals}.

(** One turn of the loop of [normalize_phone_numbers]: the [try] body
    appends the formatted number, [except Exception: pass] keeps the list. *)
Definition normalize_step (default_region : string)
           (normalized : list string) (num : pyval) : list string :=
  match phonenumbers_parse num default_region with
  | Some parsed =>
      if phonenumbers_is_valid_number parsed
      then list_append normalized (phonenumbers_format_number parsed E164)
      else normalized
  | None => normalized
  end.

Definition normalize_phone_numbers (numbers : pyval) (default_region : string)
  : outcome (list string) :=
  items <-- py_iter numbers ;;
  Returns (fold_left (normalize_step default_region) items []).

(** [f"{v}"] *)
Definition fmt (v : pyval) : string :=
  match v with
  | PStr s => s
  | _ => format_value v
  end.

(** [if x := contact_info.get(k): lines.append(f"<tag>{x}")] *)
Definition append_if_present (tag k : string) (contact_info : dict)
           (lines : list string) : list string :=
  match get_truthy k contact_info with
  | Some x => list_append lines (tag ++ fmt x)
  | None => lines
  end.

(** The list [lines] of [create_vcf_content] when control reaches the
    [return]. *)
Definition vcf_lines (contact_info : dict) : outcome (list string) :=
  let lines := ["BEGIN:VCARD"; "VERSION:3.0"] in
  lines <--
    match get_truthy "name" contact_info with
    | Some (PStr name) =>
        let parts := split " " (Some 1) name in
        let first := nth 0 parts "" in
        let last := if (1 <? List.length parts)%nat then nth 1 parts "" else "" in
        let lines := list_append lines ("N:" ++ last ++ ";" ++ first ++ ";;;") in
        Returns (list_append lines ("FN:" ++ name))
    | Some _ => Raises (AttributeError "split")
    | None => Returns lines
    end ;;
  titles <-- py_iter (dict_get_default "titles" (PList []) contact_info) ;;
  let lines :=
    fold_left (fun lines title => list_append lines ("TITLE:" ++ fmt title))
              titles lines in
  let lines := append_if_present "ORG:" "organization" contact_info lines in
  phones <--
    normalize_phone_numbers
      (dict_get_default "phone_numbers" (PList []) contact_info) "BD" ;;
  let lines :=
    fold_left (fun lines phone => list_append lines ("TEL;TYPE=CELL:" ++ phone))
              phones lines in
  let lines := append_if_present "EMAIL:" "email" contact_info lines in
  let lines := append_if_present "ADR:;;" "address" contact_info lines in
  let lines := append_if_present "URL:" "url" contact_info lines in
  Returns (list_append lines "END:VCARD").

(** [create_vcf_content]: the lines above, [return "\n".join(lines)]. *)
Definition create_vcf_content (contact_info : dict) : outcome string :=
  lines <-- vcf_lines contact_info ;;
  Returns (join nl lines).

End Serializer.

(* ================================================================= *)
(** ** Requests, responses and the handler monad *)

(** The two calls of [client.chat.completions.create]: the classification
    question and the extraction question about an encoded image (model name,
    prompt text and temperature are fixed by the call site). *)
Inductive chat_request : Type :=
| ClassificationRequest (base64_img : string)
| ExtractionRequest (base64_img : string).

(** What lies outside the process for one request.  [Image_open] is
    [PIL.Image.open] on the raw bytes, [jpeg_base64] the conversion to RGB,
    the JPEG encoding and [base64.b64encode]; [chat_completions_create]
    returns [response.choices[0].message.content]. *)
Record World : Type := {
  Image_open : string -> outcome unit;
  jpeg_base64 : string -> outcome string;
  chat_completions_create : chat_request -> outcome string
}.

(** The HTTP layer.  Starlette's [Response] and [send_header] of
    [http.server] turn the text of a header into bytes with
    [encode("latin-1")], which raises where the text holds a code point
    above U+00FF.  The strings of this file carry code points below 256,
    and text beyond that range is no value of the model; the encoding is
    kept a field so that the step, and what the endpoints do when it
    raises, is part of their definition. *)
Class Wire : Type := {
  encode_latin1 : string -> outcome string
}.

(** [f'attachment; filename={filename}.vcf'] *)
Definition disposition (filename : string) : string :=
  "attachment; filename=" ++ filename ++ ".vcf".

(** The line [send_header] encodes: ["%s: %s\r\n" % (keyword, value)]. *)
Definition header_line (keyword value : string) : string :=
  keyword ++ ": " ++ value
  ++ String (ascii_of_nat 13) (String (ascii_of_nat 10) EmptyString).

(** Texts of log lines and of error objects. *)
Inductive message : Type :=
| Msg (text : string)
| NotBusinessCard
    (* the cross mark followed by " This doesn't seem like a business card.
       Please upload a clear business card photo." *)
| ErrorProcessingImage (e : exn)  (* f"Error processing image: {str(e)}" *)
| ErrorExtracting (e : exn)
    (* f"Error extracting business card information: {str(e)}" *)
| ServerError (e : exn)           (* f"Server error: {str(e)}" *)
| ClassificationError (e : exn)   (* f"Classification error: {e}" *)
| ExnText (e : exn)               (* str(e) *)
| RequestData (data : pyval)      (* f"Request data: {data}" *)
| GeneratedVCard (vcf : string)   (* f"Generated vCard content: {vcf}" *)
| Filename (filename : string)    (* f"Filename: {filename}" *)
| ErrorGenerating (e : exn).      (* f"Error generating vCard: {str(e)}" *)

(** A response body: a JSON value, the JSON object [{"error": m}], or
    plain text. *)
Inductive body : Type :=
| Data (v : pyval)
| ErrorObject (m : message)
| Text (s : string).

Inductive event : Type :=
| ChatCall (r : chat_request)
| Print (m : message)
| SendResponse (code : nat)
| SendHeader (k v : string)
| EndHeaders
| WfileWrite (b : body).

Definition M (A : Type) : Type := list event -> outcome A * list event.

Definition ret {A} (a : A) : M A := fun t => (Returns a, t).

Definition raise {A} (e : exn) : M A := fun t => (Raises e, t).

Definition bind {A B} (m : M A) (k : A -> M B) : M B :=
  fun t =>
    match m t with
    | (Returns a, t') => k a t'
    | (Raises e, t') => (Raises e, t')
    end.

Definition lift {A} (o : outcome A) : M A := fun t => (o, t).

Definition emit (ev : event) : M unit :=
  fun t => (Returns tt, list_append t ev).

(** [try: m  except Exception as e: handler e] *)
Definition try_except {A} (m : M A) (handler : exn -> M A) : M A :=
  fun t =>
    match m t with
    | (Returns a, t') => (Returns a, t')
    | (Raises e, t') => handler e t'
    end.

Definition run {A} (m : M A) : outcome A * list event := m [].

Notation "x <- m ; k" := (bind m (fun x => k))
  (at level 61, m at next level, right associativity).
Notation "m ;; k" := (bind m (fun _ => k))
  (at level 61, right associativity).

(** A call of the model: the call is recorded, then it returns or raises. *)
Definition chat (w : World) (r : chat_request) : M string :=
  emit (ChatCall r) ;; lift (chat_completions_create w r).

(** The text handed to [json.loads] (lines 95-97 of [src/backend/app.py],
    76-78 of [src/api/upload.py]):
    [content = raw.strip()] and, when it starts with three backticks,
    [content.strip("`").split("json")[-1].strip()]. *)
Definition unwrap_content (raw : string) : string :=
  let content := strip raw in
  if startswith content fence
  then strip (last (split "json" None (strip_chars backtick content)) "")
  else content.

(** [is_card = classification.choices[0].message.content.strip().lower()] *)
Definition is_card (content : string) : string := lower (strip content).

(** The result of the classifier as the specification names it. *)
Inductive ClassificationResult : Type := IsCard | NotCard.

(** [is_card.startswith("yes")] read as a classification. *)
Definition classify (content : string) : ClassificationResult :=
  if startswith (is_card content) "yes" then IsCard else NotCard.

(** [filename = name.replace(' ', '_').replace('/', '_')] *)
Definition sanitize (name : string) : string :=
  replace_char "/" "_" (replace_char " " "_" name).

Definition access_control_allow_origin : event :=
  SendHeader "Access-Control-Allow-Origin" "*".

(* ----------------------------------------------------------------- *)
(** *** [src/backend/app.py] *)

Module BackendApp.
Section WithExternals.
Context {E : Externals} {Wi : Wire}.

(** [UploadFile]: the declared content type, if any, and the bytes. *)
Record UploadFile : Type := {
  content_type : option string;
  file_bytes : string
}.

Definition encode_image (w : World) (file : UploadFile) : M string :=
  lift (jpeg_base64 w (file_bytes file)).

Definition extract_business_card_info (w : World) (base64_img : string)
  : M pyval :=
  raw <- chat w (ExtractionRequest base64_img) ;
  let content := unwrap_content raw in
  match json_loads content with
  | Some data => ret data
  | None => raise JSONDecodeError
  end.

Definition upload_image (w : World) (file : UploadFile) : M body :=
  try_except
    (ct <- match content_type file with
           | Some ct => ret ct
           | None => raise (AttributeError "startswith")
           end ;
     if negb (startswith ct "image/")
     then ret (ErrorObject
                 (Msg "Please upload a valid image file (JPG, PNG, etc.)"))
     else
       base64_img <- encode_image w file ;
       classification <- chat w (ClassificationRequest base64_img) ;
       if negb (startswith (is_card classification) "yes")
       then ret (ErrorObject NotBusinessCard)
       else
         data <- extract_business_card_info w base64_img ;
         ret (Data data))
    (fun e => ret (ErrorObject (ErrorProcessingImage e))).

(** [fastapi.responses.Response]; the status code defaults to 200. *)
Record Response : Type := {
  content : body;
  media_type : string;
  status_code : nat;
  headers : list (string * string)
}.

(** [request_json] is the outcome of [await request.json()]: Starlette
    reads the body and decodes it, or raises.  [Response(...)] encodes the
    header it is given, inside the [try]. *)
Definition generate_vcf (request_json : outcome pyval) : M Response :=
  try_except
    (emit (Print (Msg "Received request to generate vCard")) ;;
     data <- lift request_json ;
     emit (Print (RequestData data)) ;;
     d <- match data with
          | PDict d => ret d
          | _ => raise (AttributeError "get")
          end ;
     match get_truthy "name" d with
     | None =>
         emit (Print (Msg "No name provided in request")) ;;
         ret {| content := ErrorObject (Msg "Name is required to generate vCard");
                media_type := "application/json";
                status_code := 400;
                headers := [] |}
     | Some _ =>
         vcf <- lift (create_vcf_content d) ;
         filename <- match dict_get_default "name" (PStr "contact") d with
                     | PStr name => ret (sanitize name)
                     | _ => raise (AttributeError "replace")
                     end ;
         emit (Print (GeneratedVCard vcf)) ;;
         emit (Print (Filename filename)) ;;
         lift (encode_latin1 (disposition filename)) ;;
         ret {| content := Text vcf;
                media_type := "text/vcard";
                status_code := 200;
                headers := [("Content-Disposition", disposition filename)] |}
     end)
    (fun e =>
       emit (Print (ErrorGenerating e)) ;;
       ret {| content := ErrorObject (ExnText e);
              media_type := "application/json";
              status_code := 500;
              headers := [] |}).

End WithExternals.
End BackendApp.

(* ----------------------------------------------------------------- *)
(** *** [src/api/upload.py] *)

Module ApiUpload.
Section WithExternals.
Context {E : Externals}.

Definition encode_image_data (w : World) (image_data : string) : M string :=
  lift (jpeg_base64 w image_data).

(** The record returned when [json.loads] raises [JSONDecodeError]. *)
Definition placeholder : pyval :=
  PDict [("name", PStr "Unable to parse name");
         ("titles", PList []);
         ("organization", PStr "Unable to parse organization");
         ("phone_numbers", PList []);
         ("email", PStr "");
         ("address", PStr "");
         ("url", PStr "")].

Definition extract_business_card_info (w : World) (base64_img : string)
  : M pyval :=
  try_except
    (raw <- chat w (ExtractionRequest base64_img) ;
     let content := unwrap_content raw in
     match json_loads content with
     | Some data => ret data
     | None => raise JSONDecodeError
     end)
    (fun e =>
       match e with
       | JSONDecodeError => ret placeholder
       | _ => raise (OpenAIAPIError e)
       end).

(** The request as [do_POST] sees it after lines 108-125: reading
    [Content-Length] bytes, cutting them at the multipart boundary and
    taking the first part that carries an image content type either raises
    or leaves [image_data] ([None] when no part matches). *)
Record upload_request : Type := {
  image_part : outcome (option string)
}.

Definition do_POST (w : World) (req : upload_request) : M unit :=
  try_except
    (emit (SendResponse 200) ;;
     emit (SendHeader "Content-type" "application/json") ;;
     emit access_control_allow_origin ;;
     emit (SendHeader "Access-Control-Allow-Methods" "POST, OPTIONS") ;;
     emit (SendHeader "Access-Control-Allow-Headers" "Content-Type") ;;
     emit EndHeaders ;;
     image_data <- lift (image_part req) ;
     match image_data with
     | None | Some EmptyString =>
         emit (WfileWrite (ErrorObject (Msg "No image data found")))
     | Some image_data =>
         opened <- try_except (lift (Image_open w image_data) ;; ret true)
                              (fun _ => ret false) ;
         if negb opened
         then emit (WfileWrite (ErrorObject (Msg "Invalid image format")))
         else
           base64_img <- encode_image_data w image_data ;
           proceed <-
             try_except
               (classification <- chat w (ClassificationRequest base64_img) ;
                if negb (startswith (is_card classification) "yes")
                then emit (WfileWrite (ErrorObject NotBusinessCard)) ;;
                     ret false
                else ret true)
               (fun e => emit (Print (ClassificationError e)) ;; ret true) ;
           if negb proceed then ret tt
           else
             try_except
               (data <- extract_business_card_info w base64_img ;
                emit (WfileWrite (Data data)))
               (fun e => emit (WfileWrite (ErrorObject (ErrorExtracting e))))
     end)
    (fun e =>
       try_except
         (emit (SendResponse 500) ;;
          emit (SendHeader "Content-type" "application/json") ;;
          emit access_control_allow_origin ;;
          emit EndHeaders ;;
          emit (WfileWrite (ErrorObject (ServerError e))))
         (fun _ => ret tt)).

End WithExternals.
End ApiUpload.

(* ----------------------------------------------------------------- *)
(** *** [src/api/generate-vcf.py] *)

Module ApiGenerateVcf.
Section WithExternals.
Context {E : Externals} {Wi : Wire}.

(** [post_text] is the outcome of lines 44-46 up to the decoding of the
    body: the [Content-Length] header read as an integer, that many bytes
    read and decoded as UTF-8.  [send_header] encodes the header line it is
    given; the other header lines are fixed ASCII text. *)
Definition do_POST (post_text : outcome string) : M unit :=
  try_except
    (text <- lift post_text ;
     data <- match json_loads text with
             | Some data => ret data
             | None => raise JSONDecodeError
             end ;
     d <- match data with
          | PDict d => ret d
          | _ => raise (AttributeError "get")
          end ;
     match get_truthy "name" d with
     | None =>
         emit (SendResponse 400) ;;
         emit (SendHeader "Content-type" "application/json") ;;
         emit access_control_allow_origin ;;
         emit EndHeaders ;;
         emit (WfileWrite
                 (ErrorObject (Msg "Name is required to generate vCard")))
     | Some _ =>
         vcf <- lift (create_vcf_content d) ;
         filename <- match dict_get_default "name" (PStr "contact") d with
                     | PStr name => ret (sanitize name)
                     | _ => raise (AttributeError "replace")
                     end ;
         emit (SendResponse 200) ;;
         emit (SendHeader "Content-type" "text/vcard") ;;
         emit access_control_allow_origin ;;
         lift (encode_latin1
                 (header_line "Content-Disposition" (disposition filename))) ;;
         emit (SendHeader "Content-Disposition" (disposition filename)) ;;
         emit EndHeaders ;;
         emit (WfileWrite (Text vcf))
     end)
    (fun e =>
       emit (SendResponse 500) ;;
       emit (SendHeader "Content-type" "application/json") ;;
       emit access_control_allow_origin ;;
       emit EndHeaders ;;
       emit (WfileWrite (ErrorObject (ExnText e)))).

End WithExternals.
End ApiGenerateVcf.

(* ================================================================= *)
(** ** The contact record of the specification, read off a dictionary *)

(** The seven known fields. *)
Definition string_fields : list string :=
  ["name"; "organization"; "email"; "address"; "url"].
Definition list_fields : list string := ["titles"; "phone_numbers"].

Definition is_str (v : pyval) : bool :=
  match v with PStr _ => true | _ => false end.

(** A string field has its declared shape when it is missing, null or a
    string. *)
Definition str_or_null (v : option pyval) : bool :=
  match v with
  | None | Some PNone | Some (PStr _) => true
  | _ => false
  end.

(** A list field has its declared shape when it is missing or a list of
    strings. *)
Definition str_list (v : option pyval) : bool :=
  match v with
  | None => true
  | Some (PList l) => forallb is_str l
  | _ => false
  end.

(** The same, with null let through. *)
Definition str_list_or_null (v : option pyval) : bool :=
  match v with
  | Some PNone => true
  | _ => str_list v
  end.

(** Every known field, when present and not null, has its declared shape. *)
Definition shaped_unless_null (d : dict) : bool :=
  forallb (fun k => str_or_null (dict_get k d)) string_fields
  && forallb (fun k => str_list_or_null (dict_get k d)) list_fields.

(** Every string field, when present and not null, is a string; every list
    field, when present, is a list of strings. *)
Definition well_shaped (d : dict) : bool :=
  forallb (fun k => str_or_null (dict_get k d)) string_fields
  && forallb (fun k => str_list (dict_get k d)) list_fields.

(** A string field that is present and not empty. *)
Definition str_field (k : string) (d : dict) : option string :=
  match dict_get k d with
  | Some (PStr (String c s)) => Some (String c s)
  | _ => None
  end.

Fixpoint strings_of (l : list pyval) : list string :=
  match l with
  | [] => []
  | PStr s :: l' => s :: strings_of l'
  | _ :: l' => strings_of l'
  end.

(** The strings of a list field (none when the field is missing). *)
Definition list_field (k : string) (d : dict) : list string :=
  match dict_get k d with
  | Some (PList l) => strings_of l
  | _ => []
  end.

(** A field is absent or empty. *)
Definition absent_or_empty (k : string) (d : dict) : bool :=
  match dict_get k d with
  | None | Some PNone | Some (PStr EmptyString) => true
  | _ => false
  end.

Definition optional_line (tag : string) (v : option string) : list string :=
  match v with
  | Some s => [tag ++ s]
  | None => []
  end.

(** The text before the first space and the text after it. *)
Fixpoint split_first_space (s : string) : string * string :=
  match s with
  | EmptyString => (EmptyString, EmptyString)
  | String c s' =>
      if Ascii.eqb c " " then (EmptyString, s')
      else let (a, b) := split_first_space s' in (String c a, b)
  end.

Definition name_lines (v : option string) : list string :=
  match v with
  | Some name =>
      let (first, last) := split_first_space name in
      ["N:" ++ last ++ ";" ++ first ++ ";;;"; "FN:" ++ name]
  | None => []
  end.

Section Layout.
Context {E : Externals}.

(** The numbers that survive: those that parse and are valid, formatted. *)
Definition survives (default_region : string) (num : pyval) : bool :=
  match phonenumbers_parse num default_region with
  | Some parsed => phonenumbers_is_valid_number parsed
  | None => false
  end.

Definition e164_of (default_region : string) (num : pyval) : string :=
  match phonenumbers_parse num default_region with
  | Some parsed => phonenumbers_format_number parsed E164
  | None => EmptyString
  end.

Definition normalized (default_region : string) (numbers : list pyval)
  : list string :=
  map (e164_of default_region) (filter (survives default_region) numbers).

(** The card in the order the specification fixes: header, N/FN, titles,
    organization, phones, email, address, url, footer. *)
Definition vcard_layout (d : dict) : list string :=
  List.concat
    [ ["BEGIN:VCARD"; "VERSION:3.0"];
      name_lines (str_field "name" d);
      map (fun t => "TITLE:" ++ t) (list_field "titles" d);
      optional_line "ORG:" (str_field "organization" d);
      map (fun p => "TEL;TYPE=CELL:" ++ p)
          (normalized "BD" (map PStr (list_field "phone_numbers" d)));
      optional_line "EMAIL:" (str_field "email" d);
      optional_line "ADR:;;" (str_field "address" d);
      optional_line "URL:" (str_field "url" d);
      ["END:VCARD"] ].

(** The lines [create_vcf_content] adds for the name and for a field that
    is copied as it is, one group at a time. *)
Definition name_part (d : dict) : outcome (list string) :=
  match get_truthy "name" d with
  | Some (PStr name) => Returns (name_lines (Some name))
  | Some _ => Raises (AttributeError "split")
  | None => Returns []
  end.

Definition present (tag k : string) (d : dict) : list string :=
  match get_truthy k d with
  | Some x => [tag ++ fmt x]
  | None => []
  end.

Definition vcf_groups (d : dict) (n : list string) (titles : list pyval)
           (phones : list string) : list string :=
  List.concat
    [ ["BEGIN:VCARD"; "VERSION:3.0"];
      n;
      map (fun title => "TITLE:" ++ fmt title) titles;
      present "ORG:" "organization" d;
      map (fun phone => "TEL;TYPE=CELL:" ++ phone) phones;
      present "EMAIL:" "email" d;
      present "ADR:;;" "address" d;
      present "URL:" "url" d;
      ["END:VCARD"] ].

End Layout.

(** The tag that starts the lines of each field. *)
Definition field_tags : list (string * string) :=
  [("name", "N:"); ("name", "FN:"); ("titles", "TITLE:");
   ("organization", "ORG:"); ("phone_numbers", "TEL;TYPE=CELL:");
   ("email", "EMAIL:"); ("address", "ADR:"); ("url", "URL:")].

(** The unwrapping as the specification words it: when the trimmed text
    begins with the fence, every backtick is removed, the text up to and
    including the last [json] is dropped, and the rest is trimmed. *)
Fixpoint remove_char (c : ascii) (s : string) : string :=
  match s with
  | EmptyString => EmptyString
  | String a s' =>
      if Ascii.eqb a c then remove_char c s' else String a (remove_char c s')
  end.

Definition unwrap_all_backticks (raw : string) : string :=
  let content := strip raw in
  if startswith content fence
  then strip (last (split "json" None (remove_char "`" content)) "")
  else content.

(** A text wrapped in a fence with the [json] language tag. *)
Definition fenced (text : string) : string :=
  fence ++ "json" ++ nl ++ text ++ nl ++ fence.

(* ================================================================= *)
(** ** A sample instance of the libraries

    A small decoder for a subset of JSON and a phone-number table for
    Bangladesh only, used to run the handlers on concrete requests.  The
    theorems below hold for every instance of [Externals]. *)

Module Sample.

Definition json_space (c : ascii) : bool :=
  Ascii.eqb c " " || (nat_of_ascii c =? 9)%nat
  || (nat_of_ascii c =? 10)%nat || (nat_of_ascii c =? 13)%nat.

Definition skip_ws (s : string) : string := lstrip_by json_space s.

Definition is_digit (c : ascii) : bool :=
  ((48 <=? nat_of_ascii c) && (nat_of_ascii c <=? 57))%nat.

(** The characters of a string literal up to its closing quote, with the
    one-letter escapes. *)
Fixpoint string_body (s : string) (acc : string) : option (string * string) :=
  match s with
  | EmptyString => None
  | String c s' =>
      if (nat_of_ascii c =? 34)%nat then Some (acc, s')
      else if Ascii.eqb c "\" then
        match s' with
        | String e s'' =>
            let put x := string_body s'' (acc ++ String x EmptyString) in
            if (nat_of_ascii e =? 34)%nat then put e
            else if Ascii.eqb e "\" then put e
            else if Ascii.eqb e "/" then put e
            else if Ascii.eqb e "n" then put (ascii_of_nat 10)
            else if Ascii.eqb e "t" then put (ascii_of_nat 9)
            else if Ascii.eqb e "r" then put (ascii_of_nat 13)
            else None
        | EmptyString => None
        end
      else if (nat_of_ascii c <? 32)%nat then None
      else string_body s' (acc ++ String c EmptyString)
  end.

Fixpoint digits (s : string) (acc : Z) : Z * string :=
  match s with
  | String c s' =>
      if is_digit c
      then digits s' (10 * acc + Z.of_nat (nat_of_ascii c - 48))%Z
      else (acc, s)
  | EmptyString => (acc, s)
  end.

(** An integer without fraction or exponent. *)
Definition integer (s : string) : option (pyval * string) :=
  let (neg, s1) :=
    match s with
    | String "-"%char r => (true, r)
    | _ => (false, s)
    end in
  match s1 with
  | String c _ =>
      if is_digit c then
        let (z, rest) := digits s1 0%Z in
        match rest with
        | String "."%char _ | String "e"%char _ | String "E"%char _ => None
        | _ => Some (PInt (if neg then Z.opp z else z), rest)
        end
      else None
  | EmptyString => None
  end.

Definition literal (s : string) : option (pyval * string) :=
  if String.prefix "null" s then Some (PNone, substring 4 (String.length s) s)
  else if String.prefix "true" s
       then Some (PBool true, substring 4 (String.length s) s)
  else if String.prefix "false" s
       then Some (PBool false, substring 5 (String.length s) s)
  else integer s.

Fixpoint value (fuel : nat) (s : string) {struct fuel}
  : option (pyval * string) :=
  match fuel with
  | O => None
  | S fuel =>
      match skip_ws s with
      | String "{"%char r =>
          match skip_ws r with
          | String "}"%char r' => Some (PDict [], r')
          | r1 => members fuel r1 []
          end
      | String "["%char r =>
          match skip_ws r with
          | String "]"%char r' => Some (PList [], r')
          | r1 => elements fuel r1 []
          end
      | String c r =>
          if (nat_of_ascii c =? 34)%nat then
            match string_body r EmptyString with
            | Some (str, r') => Some (PStr str, r')
            | None => None
            end
          else literal (String c r)
      | EmptyString => None
      end
  end
with members (fuel : nat) (s : string) (acc : dict) {struct fuel}
  : option (pyval * string) :=
  match fuel with
  | O => None
  | S fuel =>
      match skip_ws s with
      | String c r =>
          if (nat_of_ascii c =? 34)%nat then
            match string_body r EmptyString with
            | Some (k, r1) =>
                match skip_ws r1 with
                | String ":"%char r2 =>
                    match value fuel r2 with
                    | Some (v, r3) =>
                        match skip_ws r3 with
                        | String ","%char r4 => members fuel r4 (dict_set k v acc)
                        | String "}"%char r4 => Some (PDict (dict_set k v acc), r4)
                        | _ => None
                        end
                    | None => None
                    end
                | _ => None
                end
            | None => None
            end
          else None
      | EmptyString => None
      end
  end
with elements (fuel : nat) (s : string) (acc : list pyval) {struct fuel}
  : option (pyval * string) :=
  match fuel with
  | O => None
  | S fuel =>
      match value fuel s with
      | Some (v, r1) =>
          match skip_ws r1 with
          | String ","%char r2 => elements fuel r2 (list_append acc v)
          | String "]"%char r2 => Some (PList (list_append acc v), r2)
          | _ => None
          end
      | None => None
      end
  end.

Definition loads (s : string) : option pyval :=
  match value (2 * String.length s + 2) s with
  | Some (v, rest) =>
      match skip_ws rest with
      | EmptyString => Some v
      | _ => None
      end
  | None => None
  end.

(** Phone numbers of Bangladesh: country code 880, ten national digits
    starting with 1, written with the country code or with a leading 0. *)
Record number : Type := { country_code : string; national : string }.

Fixpoint all_digits (s : string) : bool :=
  match s with
  | EmptyString => true
  | String c s' => is_digit c && all_digits s'
  end.

Definition parse (num : pyval) (default_region : string) : option number :=
  match num with
  | PStr text =>
      let s := remove_char "-" (remove_char " " text) in
      if String.prefix "+880" s then
        let n := substring 4 (String.length s) s in
        if all_digits n && negb (String.eqb n EmptyString)
        then Some {| country_code := "880"; national := n |} else None
      else if String.prefix "0" s && String.eqb default_region "BD" then
        let n := substring 1 (String.length s) s in
        if all_digits n && negb (String.eqb n EmptyString)
        then Some {| country_code := "880"; national := n |} else None
      else None
  | _ => None
  end.

Definition is_valid_number (n : number) : bool :=
  (String.length (national n) =? 10)%nat && String.prefix "1" (national n).

Definition format_number (n : number) (f : PhoneNumberFormat) : string :=
  "+" ++ country_code n ++ national n.

#[export] Instance externals : Externals := {|
  PhoneNumber := number;
  phonenumbers_parse := parse;
  phonenumbers_is_valid_number := is_valid_number;
  phonenumbers_format_number := format_number;
  json_loads := loads;
  format_value := fun _ => "?"
|}.

(** A world in which the image opens and encodes, the classifier answers
    [answer] and the extraction answers [extraction]. *)
Definition world (answer extraction : outcome string) : World := {|
  Image_open := fun _ => Returns tt;
  jpeg_base64 := fun _ => Returns "aW1hZ2U=";
  chat_completions_create := fun r =>
    match r with
    | ClassificationRequest _ => answer
    | ExtractionRequest _ => extraction
    end
|}.

Definition jpeg : BackendApp.UploadFile :=
  {| BackendApp.content_type := Some "image/jpeg";
     BackendApp.file_bytes := "bytes" |}.

Definition multipart : ApiUpload.upload_request :=
  {| ApiUpload.image_part := Returns (Some "bytes") |}.

(** A record with every field, and the text of a request that carries a
    name and two phone numbers. *)
Definition card : dict :=
  [("url", PStr "https://example.org");
   ("name", PStr "Jane Roe");
   ("phone_numbers", PList [PStr "01812345678"; PStr "not-a-phone"]);
   ("titles", PList [PStr "Engineer"; PStr "Team Lead"]);
   ("email", PStr "jane@example.org");
   ("organization", PStr "Example Ltd");
   ("address", PStr "1 Main Road, Dhaka 1207, Bangladesh")].

Definition request : string :=
  "{" ++ dq ++ "name" ++ dq ++ ":" ++ dq ++ "Jane Roe" ++ dq ++ ","
  ++ dq ++ "phone_numbers" ++ dq ++ ":[" ++ dq ++ "01812345678" ++ dq ++ "]}".

(** To run the endpoints on a name beyond Latin-1 the sample carries text
    as its UTF-8 bytes.  On that reading the operations of the vCard path
    (splitting at a space, replacing a space or a slash, concatenation)
    are still exact, since an ASCII byte occurs in UTF-8 only as itself,
    and text encodes as Latin-1 when no lead byte exceeds 0xC3: the bytes
    0xC2 and 0xC3 start the code points U+0080 to U+00FF, every higher
    lead byte a code point that Latin-1 lacks. *)
Fixpoint latin1_of_utf8 (s : string) : outcome string :=
  match s with
  | EmptyString => Returns EmptyString
  | String c r =>
      let n := nat_of_ascii c in
      if (n <? 128)%nat
      then t <-- latin1_of_utf8 r ;; Returns (String c t)
      else
        match r with
        | String d r' =>
            if (n =? 194)%nat
            then t <-- latin1_of_utf8 r' ;; Returns (String d t)
            else if (n =? 195)%nat
            then t <-- latin1_of_utf8 r' ;;
                 Returns (String (ascii_of_nat (nat_of_ascii d + 64)) t)
            else Raises UnicodeEncodeError
        | EmptyString => Raises UnicodeEncodeError
        end
  end.

Definition wire : Wire := {| encode_latin1 := latin1_of_utf8 |}.

(** A Bengali name, as its twelve UTF-8 bytes, and a record and a request
    that carry it. *)
Definition bengali_name : string := "রহিম".

Definition bengali_card : dict := [("name", PStr bengali_name)].

Definition bengali_request : string :=
  "{" ++ dq ++ "name" ++ dq ++ ":" ++ dq ++ bengali_name ++ dq ++ "}".

End Sample.

(* ================================================================= *)
(** ** The multipart scan of [src/api/upload.py] (lines 116-125) *)

Module Multipart.

(** [s.encode()]: the UTF-8 bytes of code points below 256. *)
Fixpoint encode_utf8 (s : string) : string :=
  match s with
  | EmptyString => EmptyString
  | String c s' =>
      let n := nat_of_ascii c in
      if (n <? 128)%nat then String c (encode_utf8 s')
      else String (ascii_of_nat (192 + n / 64))
             (String (ascii_of_nat (128 + n mod 64)) (encode_utf8 s'))
  end.

(** The index of the first occurrence of [sub] in [s], if any. *)
Fixpoint find_index (sub s : string) : option nat :=
  if String.prefix sub s then Some 0%nat
  else match s with
       | EmptyString => None
       | String _ s' => option_map S (find_index sub s')
       end.

(** [s.find(sub)]: the index of the first occurrence, or -1. *)
Definition find (sub s : string) : Z :=
  match find_index sub s with
  | Some i => Z.of_nat i
  | None => (-1)%Z
  end.

(** [s[start:-2]] for a start that is not negative: the characters from
    [start] up to two before the end. *)
Definition slice_to_last2 (start : Z) (s : string) : string :=
  let a := Z.to_nat start in
  substring a (String.length s - 2 - a) s.

Definition crlf : string :=
  String (ascii_of_nat 13) (String (ascii_of_nat 10) EmptyString).

Definition blank_line : string := crlf ++ crlf.

Definition image_marker : string := "Content-Type: image/".

(** Line 116: [self.headers['Content-Type'].split('boundary=')[1]];
    [None] where the index is out of range. *)
Definition boundary_of (content_type : string) : option string :=
  nth_error (split "boundary=" None content_type) 1.

(** Lines 119-125: the first part that holds the image marker gives the
    image data, cut after the first blank line and two before the end. *)
Fixpoint image_data_of_parts (parts : list string) : option string :=
  match parts with
  | [] => None
  | part :: parts' =>
      if contains image_marker part
      then let image_start := (find blank_line part + 4)%Z in
           Some (slice_to_last2 image_start part)
      else image_data_of_parts parts'
  end.

(** Lines 117-125 for a given boundary and request body. *)
Definition find_image_part (boundary raw_data : string) : option string :=
  let parts := split (encode_utf8 ("--" ++ boundary)) None raw_data in
  image_data_of_parts parts.

(** The separator without its last character. *)
Fixpoint drop_last (s : string) : string :=
  match s with
  | EmptyString => EmptyString
  | String c EmptyString => EmptyString
  | String c s' => String c (drop_last s')
  end.

(** No occurrence of [sep] starts inside [x] when [x] is followed by
    [sep]. *)
Definition free_of (sep x : string) : bool :=
  negb (contains sep (x ++ drop_last sep)).

(** A request body with one image part. *)
Definition part_headers : string :=
  "Content-Disposition: form-data; name=file" ++ crlf
  ++ "Content-Type: image/png".

Definition one_image_body (boundary data : string) : string :=
  "--" ++ boundary ++ crlf ++ part_headers ++ blank_line ++ data ++ crlf
  ++ "--" ++ boundary ++ "--" ++ crlf.

End Multipart.

(* ================================================================= *)
(** ** Notions used to state the handler invariants *)

(** The status line and headers [do_POST] of [src/api/upload.py] sends
    first. *)
Definition ok_headers : list event :=
  [SendResponse 200;
   SendHeader "Content-type" "application/json";
   SendHeader "Access-Control-Allow-Origin" "*";
   SendHeader "Access-Control-Allow-Methods" "POST, OPTIONS";
   SendHeader "Access-Control-Allow-Headers" "Content-Type";
   EndHeaders].

(** The bodies written and the model calls made, in order. *)
Fixpoint writes (t : list event) : list body :=
  match t with
  | [] => []
  | WfileWrite b :: t' => b :: writes t'
  | _ :: t' => writes t'
  end.

Fixpoint chat_calls (t : list event) : list chat_request :=
  match t with
  | [] => []
  | ChatCall r :: t' => r :: chat_calls t'
  | _ :: t' => chat_calls t'
  end.

(** At most one classification call, then at most one extraction call for
    the same image. *)
Definition calls_in_order (calls : list chat_request) : Prop :=
  calls = []
  \/ exists base64_img,
       calls = [ClassificationRequest base64_img]
       \/ calls = [ClassificationRequest base64_img;
                   ExtractionRequest base64_img].


(** The tags that start the lines between header and footer. *)
Definition line_tags : list string :=
  ["N:"; "FN:"; "TITLE:"; "ORG:"; "TEL;TYPE=CELL:"; "EMAIL:"; "ADR:;;";
   "URL:"].

Definition tagged (l : string) : bool :=
  existsb (fun tag => startswith l tag) line_tags.

(* ================================================================= *)
(** ** Notions used to state the properties *)

(** A response that begins with "yes" in any letter case after leading
    white space. *)
Definition begins_with_yes (content : string) : Prop :=
  exists ws c1 c2 c3 rest,
    content = ws ++ String c1 (String c2 (String c3 rest))
    /\ all_chars is_space ws = true
    /\ (c1 = "y" \/ c1 = "Y")%char
    /\ (c2 = "e" \/ c2 = "E")%char
    /\ (c3 = "s" \/ c3 = "S")%char.

(** Every space and every forward slash replaced by an underscore. *)
Fixpoint underscored (name : string) : string :=
  match name with
  | EmptyString => EmptyString
  | String c s =>
      String (if Ascii.eqb c " " || Ascii.eqb c "/" then "_"%char else c)
             (underscored s)
  end.

(** The backtick as a set of characters to strip. *)
Definition is_backtick (c : ascii) : bool := mem_char c backtick.

(** [s] ends with the character [c]. *)
Definition ends_with_char (s : string) (c : ascii) : Prop :=
  exists x, s = x ++ String c EmptyString.

(** Three JSON texts: a name that holds a backtick, a URL that holds the
    letters [json], and the name A. *)
Definition name_with_backtick : string :=
  "{" ++ dq ++ "name" ++ dq ++ ":" ++ dq ++ "a`b" ++ dq ++ "}".
Definition url_with_json : string :=
  "{" ++ dq ++ "url" ++ dq ++ ":" ++ dq ++ "json.org" ++ dq ++ "}".
Definition name_A : string :=
  "{" ++ dq ++ "name" ++ dq ++ ":" ++ dq ++ "A" ++ dq ++ "}".

(* ================================================================= *)
(** ** Facts about the string operations *)

Section StringFacts.

Lemma append_nil_r (s : string) : s ++ "" = s.
Proof. induction s as [|c s IH]; simpl; [reflexivity | now rewrite IH]. Qed.

Lemma append_assoc (a b c : string) : (a ++ b) ++ c = a ++ (b ++ c).
Proof. induction a as [|x a IH]; simpl; [reflexivity | now rewrite IH]. Qed.

Lemma length_append (a b : string) :
  String.length (a ++ b) = String.length a + String.length b.
Proof. induction a as [|x a IH]; simpl; [reflexivity | now rewrite IH]. Qed.

Lemma prefix_append (p s : string) : String.prefix p (p ++ s) = true.
Proof.
  induction p as [|c p IH]; simpl.
  - now destruct s.
  - destruct (ascii_dec c c) as [_|n]; [exact IH | now elim n].
Qed.

Lemma prefix_split (p s : string) :
  String.prefix p s = true -> exists r, s = p ++ r.
Proof.
  revert s; induction p as [|c p IH]; intros s H.
  - now exists s.
  - destruct s as [|d s]; simpl in H; [discriminate|].
    destruct (ascii_dec c d) as [->|]; [|discriminate].
    destruct (IH _ H) as [r ->]. now exists r.
Qed.

(** *** Stripping *)

Lemma lstrip_by_split (p : ascii -> bool) (s : string) :
  exists ws, s = ws ++ lstrip_by p s /\ all_chars p ws = true.
Proof.
  induction s as [|c s [ws [Hs Hws]]]; simpl.
  - now exists "".
  - destruct (p c) eqn:Hc.
    + exists (String c ws). simpl. rewrite Hc, Hws. split; [now f_equal | easy].
    + now exists "".
Qed.

Lemma lstrip_by_app (p : ascii -> bool) (ws s : string) :
  all_chars p ws = true -> lstrip_by p (ws ++ s) = lstrip_by p s.
Proof.
  induction ws as [|c ws IH]; simpl; [easy|].
  intros H. apply andb_true_iff in H as [-> H]. now apply IH.
Qed.

Lemma lstrip_by_head (p : ascii -> bool) (s : string) :
  match lstrip_by p s with
  | EmptyString => True
  | String c _ => p c = false
  end.
Proof.
  induction s as [|c s IH]; simpl; [exact I|].
  destruct (p c) eqn:Hc; [exact IH | exact Hc].
Qed.

Lemma rstrip_by_cons (p : ascii -> bool) (c : ascii) (s : string) :
  p c = false -> rstrip_by p (String c s) = String c (rstrip_by p s).
Proof. intros H; simpl. rewrite H. now destruct (rstrip_by p s). Qed.

Lemma rstrip_by_split (p : ascii -> bool) (s : string) :
  exists ws, s = rstrip_by p s ++ ws /\ all_chars p ws = true.
Proof.
  induction s as [|c s [ws [Hs Hws]]]; simpl.
  - now exists "".
  - destruct (rstrip_by p s) as [|d r] eqn:Hr.
    + destruct (p c) eqn:Hc.
      * exists (String c ws). simpl in *. rewrite Hc, Hws. now rewrite <- Hs.
      * exists ws. simpl in *. subst ws. now split.
    + exists ws. simpl in *. split; [now f_equal | easy].
Qed.

Lemma rstrip_by_app (p : ascii -> bool) (s ws : string) :
  all_chars p ws = true -> rstrip_by p (s ++ ws) = rstrip_by p s.
Proof.
  intros Hws. induction s as [|c s IH]; simpl.
  - induction ws as [|d ws IHw]; simpl; [reflexivity|].
    simpl in Hws. apply andb_true_iff in Hws as [Hd Hws].
    now rewrite (IHw Hws), Hd.
  - now rewrite IH.
Qed.

Lemma rstrip_by_keep (p : ascii -> bool) (s t : string) :
  t <> "" -> rstrip_by p t = t -> rstrip_by p (s ++ t) = s ++ t.
Proof.
  intros Hne Ht. induction s as [|c s IH]; simpl; [exact Ht|].
  rewrite IH. destruct (s ++ t) eqn:Hst; [|reflexivity].
  destruct s; simpl in Hst; [now elim Hne | discriminate].
Qed.

Lemma lstrip_by_all (p : ascii -> bool) (ws : string) :
  all_chars p ws = true -> lstrip_by p ws = "".
Proof.
  induction ws as [|c ws IH]; simpl; [easy|].
  intros H. apply andb_true_iff in H as [-> H]. now apply IH.
Qed.

Lemma strip_by_padded (p : ascii -> bool) (l t r : string) :
  all_chars p l = true -> all_chars p r = true ->
  strip_by p (l ++ t ++ r) = strip_by p t.
Proof.
  intros Hl Hr. unfold strip_by. rewrite (lstrip_by_app p l _ Hl).
  induction t as [|c t IH]; simpl.
  - now rewrite (lstrip_by_all p r Hr).
  - destruct (p c) eqn:Hc; [exact IH|].
    change (String c (t ++ r)) with (String c t ++ r).
    now apply rstrip_by_app.
Qed.

(** *** Searching and splitting *)

Lemma split_from_skip (sep : string) (m : option nat) (u s : string) :
  split_from sep m (String.length u) (u ++ s) = split_from sep m 0 s.
Proof.
  induction u as [|c u IH]; simpl; [reflexivity | exact IH].
Qed.

Lemma split_prefix (sep : string) (c : ascii) (s : string) :
  split (String c sep) None (String c sep ++ s)
  = "" :: split (String c sep) None s.
Proof.
  unfold split. cbn [split_from append can_split andb].
  change (String c (sep ++ s)) with (String c sep ++ s).
  rewrite prefix_append. cbn [dec_split String.length Nat.sub].
  rewrite Nat.sub_0_r. f_equal. apply split_from_skip.
Qed.

Lemma split_absent (sep s : string) :
  contains sep s = false -> split sep None s = [s].
Proof.
  unfold split. induction s as [|c s IH]; simpl; [reflexivity|].
  intros H. apply orb_false_iff in H as [Hp Hc].
  rewrite Hp, (IH Hc). reflexivity.
Qed.

Lemma split_no_budget (sep s : string) : split sep (Some 0) s = [s].
Proof.
  unfold split. induction s as [|c s IH]; simpl; [reflexivity|].
  now rewrite IH.
Qed.

Lemma last_cons_head (c : ascii) (l : list string) :
  (2 <= List.length l)%nat -> last (cons_head c l) "" = last l "".
Proof.
  destruct l as [|h [|h' t]]; simpl; intros H; try lia. reflexivity.
Qed.

(** The last piece of a split: the text itself when the separator does not
    occur, otherwise what follows an occurrence after which the separator
    occurs no more. *)
Lemma last_split (c : ascii) (sep0 : string) (s : string) :
  let sep := String c sep0 in
  (contains sep s = false -> split sep None s = [s]) /\
  (contains sep s = true ->
   (2 <= List.length (split sep None s))%nat /\
   exists a b, s = a ++ sep ++ b /\ contains sep b = false
               /\ last (split sep None s) "" = b).
Proof.
  intros sep. split; [apply split_absent|].
  assert (Hsp : forall r, split sep None (sep ++ r) = "" :: split sep None r)
    by (intros r; apply split_prefix).
  remember (String.length s) as n eqn:Hn. revert s Hn.
  induction n as [n IH] using lt_wf_ind. intros s Hn Hc.
  destruct (String.prefix sep s) eqn:Hp.
  - destruct (prefix_split _ _ Hp) as [r ->].
    rewrite Hsp.
    destruct (contains sep r) eqn:Hr.
    + assert (Hlt : (String.length r < n)%nat).
      { subst n. rewrite length_append. simpl. lia. }
      destruct (IH _ Hlt r eq_refl Hr) as [Hlen [a [b [Hab [Hb Hlast]]]]].
      split; [simpl; lia|]. exists (sep ++ a), b.
      rewrite append_assoc, <- Hab. repeat split; [exact Hb|].
      destruct (split sep None r) eqn:Hs; [simpl in Hlen; lia|]. exact Hlast.
    + rewrite (split_absent _ _ Hr). split; [simpl; lia|].
      exists "", r. now repeat split.
  - destruct s as [|d s]; [simpl in Hc; discriminate|].
    assert (Hc' : contains sep s = true).
    { cbn [contains] in Hc. rewrite Hp in Hc. exact Hc. }
    assert (Hlt : (String.length s < n)%nat) by (subst n; simpl; lia).
    destruct (IH _ Hlt s eq_refl Hc') as [Hlen [a [b [Hab [Hb Hlast]]]]].
    assert (Hs : split sep None (String d s)
                 = cons_head d (split sep None s)).
    { unfold split. cbn [split_from can_split andb]. now rewrite Hp. }
    rewrite Hs. split.
    + destruct (split sep None s) as [|h t]; simpl in *; lia.
    + exists (String d a), b. split; [exact (f_equal (String d) Hab)|].
      split; [exact Hb|]. now rewrite last_cons_head.
Qed.

Lemma contains_prefix (sep s : string) :
  String.prefix sep s = true -> contains sep s = true.
Proof. intros H. destruct s; simpl in *; now rewrite H. Qed.

Lemma contains_intro (sep a b : string) : contains sep (a ++ sep ++ b) = true.
Proof.
  induction a as [|c a IH]; simpl.
  - apply contains_prefix, prefix_append.
  - rewrite IH. apply orb_true_r.
Qed.

Lemma app_decompose (a a2 x y : string) :
  a ++ x = a2 ++ y -> (String.length a <= String.length a2)%nat ->
  exists u, a2 = a ++ u /\ x = u ++ y.
Proof.
  revert a2. induction a as [|c a IH]; intros a2 H Hlen; simpl in *.
  - now exists a2.
  - destruct a2 as [|d a2]; simpl in *; [lia|].
    injection H as -> H. destruct (IH a2 H) as [u [-> ->]]; [lia|].
    now exists u.
Qed.

(** [json] does not overlap itself: an occurrence after which the text
    holds no further [json] is the last one. *)
Lemma json_last_occurrence (a b a2 b2 : string) :
  a ++ "json" ++ b = a2 ++ "json" ++ b2 ->
  contains "json" b = false ->
  (String.length a2 <= String.length a)%nat.
Proof.
  intros H Hb.
  destruct (Nat.le_gt_cases (String.length a2) (String.length a)) as [|Hlt];
    [assumption | exfalso].
  destruct (app_decompose a a2 _ _ H) as [u [-> Hu]]; [lia|].
  rewrite length_append in Hlt.
  destruct u as [|u1 [|u2 [|u3 [|u4 u]]]]; simpl in Hu, Hlt;
    try lia; try discriminate.
  injection Hu as _ _ _ _ Hu.
  assert (Hin : contains "json" b = true)
    by (rewrite Hu; apply (contains_intro "json" u b2)).
  congruence.
Qed.

Lemma prefix_json_newline (s : string) :
  String.prefix "json" (s ++ nl) = String.prefix "json" s.
Proof.
  unfold nl. change (ascii_of_nat 10) with "010"%char.
  destruct s as [|a [|b [|c [|d s]]]]; cbn [String.prefix append];
    repeat (destruct (ascii_dec _ _); try reflexivity; try congruence).
  now destruct s.
Qed.

Lemma contains_json_newline (t : string) :
  contains "json" t = false -> contains "json" (nl ++ t ++ nl) = false.
Proof.
  intros H. change (nl ++ t ++ nl) with (String (ascii_of_nat 10) (t ++ nl)).
  cbn [contains]. replace (String.prefix _ (String (ascii_of_nat 10) _))
    with false by reflexivity.
  induction t as [|c t IH]; [reflexivity|].
  change (String c t ++ nl) with (String c (t ++ nl)).
  cbn [contains] in *. apply orb_false_iff in H as [Hp Hc].
  change (String c (t ++ nl)) with (String c t ++ nl).
  rewrite prefix_json_newline, Hp. exact (IH Hc).
Qed.

(** *** Lower case and the word "yes" *)

Lemma lower_char_y (c : ascii) :
  lower_char c = "y"%char <-> (c = "y" \/ c = "Y")%char.
Proof.
  destruct c as [[] [] [] [] [] [] [] []];
    (split; [vm_compute; intros H; try discriminate H; auto
            | intros [H|H]; try discriminate H; reflexivity]).
Qed.

Lemma lower_char_e (c : ascii) :
  lower_char c = "e"%char <-> (c = "e" \/ c = "E")%char.
Proof.
  destruct c as [[] [] [] [] [] [] [] []];
    (split; [vm_compute; intros H; try discriminate H; auto
            | intros [H|H]; try discriminate H; reflexivity]).
Qed.

Lemma lower_char_s (c : ascii) :
  lower_char c = "s"%char <-> (c = "s" \/ c = "S")%char.
Proof.
  destruct c as [[] [] [] [] [] [] [] []];
    (split; [vm_compute; intros H; try discriminate H; auto
            | intros [H|H]; try discriminate H; reflexivity]).
Qed.

Lemma startswith_yes (s : string) :
  startswith (lower s) "yes" = true <->
  exists c1 c2 c3 rest,
    s = String c1 (String c2 (String c3 rest))
    /\ lower_char c1 = "y"%char /\ lower_char c2 = "e"%char
    /\ lower_char c3 = "s"%char.
Proof.
  unfold startswith. split.
  - destruct s as [|c1 [|c2 [|c3 rest]]]; cbn [String.prefix lower];
      repeat (destruct (ascii_dec _ _)); try (intros H; discriminate H).
    intros _. exists c1, c2, c3, rest. now repeat split.
  - intros [c1 [c2 [c3 [rest [-> [H1 [H2 H3]]]]]]]. cbn [String.prefix lower].
    rewrite H1, H2, H3.
    repeat (destruct (ascii_dec _ _); [|congruence]).
    now destruct (lower rest).
Qed.

Lemma yes_letter_not_space (c : ascii) :
  lower_char c = "y"%char \/ lower_char c = "e"%char
  \/ lower_char c = "s"%char -> is_space c = false.
Proof.
  rewrite lower_char_y, lower_char_e, lower_char_s.
  intros [[->| ->]|[[->| ->]|[->| ->]]]; reflexivity.
Qed.

Lemma is_card_yes (content : string) :
  startswith (is_card content) "yes" = true <-> begins_with_yes content.
Proof.
  unfold is_card, strip, strip_by, begins_with_yes. rewrite startswith_yes.
  split.
  - intros [c1 [c2 [c3 [rest [Hr [H1 [H2 H3]]]]]]].
    destruct (lstrip_by_split is_space content) as [ws [Hc Hws]].
    destruct (rstrip_by_split is_space (lstrip_by is_space content))
      as [tail [Ht _]].
    rewrite Hr in Ht. exists ws, c1, c2, c3, (rest ++ tail).
    split; [rewrite Hc at 1; now rewrite Ht|].
    split; [exact Hws|].
    now rewrite <- lower_char_y, <- lower_char_e, <- lower_char_s.
  - intros [ws [c1 [c2 [c3 [rest [-> [Hws [H1 [H2 H3]]]]]]]]].
    rewrite <- lower_char_y in H1. rewrite <- lower_char_e in H2.
    rewrite <- lower_char_s in H3.
    exists c1, c2, c3, (rstrip_by is_space rest).
    split; [|now repeat split].
    rewrite (lstrip_by_app _ _ _ Hws). cbn [lstrip_by].
    rewrite (yes_letter_not_space c1) by auto.
    now rewrite !rstrip_by_cons by (apply yes_letter_not_space; auto).
Qed.

(** *** Splitting a name at its first space *)

Lemma prefix_space (c : ascii) (s : string) :
  String.prefix " " (String c s) = Ascii.eqb c " ".
Proof.
  cbn [String.prefix]. destruct (ascii_dec " " c) as [<-|Hn].
  - now destruct s.
  - symmetry. apply Ascii.eqb_neq. congruence.
Qed.

Lemma split_once_first_space (s : string) :
  let parts := split " " (Some 1) s in
  (nth 0 parts "",
   if (1 <? List.length parts)%nat then nth 1 parts "" else "")
  = split_first_space s.
Proof.
  assert (H : split " " (Some 1) s
              = let (a, b) := split_first_space s in
                if contains " " s then [a; b] else [a]).
  { unfold split. induction s as [|c s IH]; [reflexivity|].
    cbn [split_from can_split contains split_first_space andb].
    rewrite prefix_space. destruct (Ascii.eqb c " ") eqn:Hc.
    - cbn [dec_split String.length Nat.sub Nat.pred orb].
      now rewrite (split_no_budget " " s : split_from _ _ _ _ = _).
    - rewrite IH. destruct (split_first_space s) as [a b]. cbn [orb].
      now destruct (contains " " s). }
  cbn zeta. rewrite H. destruct (split_first_space s) as [a b] eqn:Hab.
  destruct (contains " " s) eqn:Hc; [reflexivity|].
  simpl. f_equal.
  clear H. revert a b Hab. induction s as [|c s IH]; intros a b Hab.
  - now inversion Hab.
  - cbn [contains split_first_space] in *. rewrite prefix_space in Hc.
    apply orb_false_iff in Hc as [Hc Hs]. rewrite Hc in Hab.
    destruct (split_first_space s) as [a' b'].
    inversion Hab; subst. now apply (IH Hs a').
Qed.

Lemma split_first_space_spec (s : string) :
  let (first, rest) := split_first_space s in
  contains " " first = false
  /\ ((contains " " s = true /\ s = first ++ " " ++ rest)
      \/ (contains " " s = false /\ first = s /\ rest = "")).
Proof.
  induction s as [|c s IH]; [simpl; auto|].
  cbn [split_first_space contains]. rewrite prefix_space.
  destruct (Ascii.eqb c " ") eqn:Hc.
  - apply Ascii.eqb_eq in Hc as ->. split; [reflexivity|]. now left.
  - destruct (split_first_space s) as [a b]. destruct IH as [Ha Hs].
    cbn [contains orb]. rewrite prefix_space, Hc. cbn [orb].
    split; [exact Ha|].
    destruct Hs as [[Hs ->]|[Hs [-> ->]]]; [left | right]; now rewrite ?Hs.
Qed.

Lemma sanitize_underscored (name : string) : sanitize name = underscored name.
Proof.
  unfold sanitize. induction name as [|c s IH]; [reflexivity|].
  cbn [replace_char underscored]. rewrite IH. f_equal.
  destruct (Ascii.eqb c " ") eqn:Hs; [reflexivity|].
  now destruct (Ascii.eqb c "/").
Qed.

(** *** Joining lines and splitting them again *)

Lemma split_line (c : ascii) (x rest : string) :
  contains (String c "") x = false ->
  split (String c "") None (x ++ String c "" ++ rest)
  = x :: split (String c "") None rest.
Proof.
  intros Hx. induction x as [|a x IH].
  - apply (split_prefix "" c).
  - cbn [contains] in Hx. apply orb_false_iff in Hx as [Hp Hc].
    change ((String a x) ++ String c "" ++ rest)
      with (String a (x ++ String c "" ++ rest)).
    unfold split in *. cbn [split_from can_split andb].
    assert (Hp' : String.prefix (String c "") (String a (x ++ String c "" ++ rest))
                  = false).
    { cbn [String.prefix] in *. destruct (ascii_dec c a); [|reflexivity].
      now destruct x. }
    rewrite Hp', (IH Hc). reflexivity.
Qed.

Lemma split_join (lines : list string) :
  lines <> [] ->
  Forall (fun l => contains nl l = false) lines ->
  split nl None (join nl lines) = lines.
Proof.
  induction lines as [|x [|y lines] IH]; intros Hne Hall.
  - now elim Hne.
  - cbn [join String.concat]. apply split_absent. now inversion Hall.
  - inversion Hall as [|? ? Hx Hrest]; subst.
    change (join nl (x :: y :: lines)) with (x ++ nl ++ join nl (y :: lines)).
    unfold nl at 1 2. rewrite (split_line _ x _ Hx). fold nl.
    f_equal. apply IH; [discriminate | exact Hrest].
Qed.

End StringFacts.

(* ================================================================= *)
(** ** Facts about dictionaries and the serializer *)

Section SerializerFacts.
Context {E : Externals}.

Lemma dict_get_remove (k k' : string) (d : dict) :
  dict_get k' (dict_remove k d)
  = if String.eqb k k' then None else dict_get k' d.
Proof.
  induction d as [|[k0 v] d IH]; simpl.
  - now destruct (String.eqb k k').
  - destruct (String.eqb k k0) eqn:Hk0; simpl.
    + rewrite IH. destruct (String.eqb k k') eqn:Hk; [reflexivity|].
      apply String.eqb_eq in Hk0 as <-.
      rewrite String.eqb_sym in Hk. now rewrite Hk.
    + rewrite IH. destruct (String.eqb k' k0) eqn:Hk'; [|reflexivity].
      apply String.eqb_eq in Hk' as ->. now rewrite Hk0.
Qed.

Lemma dict_get_none (k : string) (d : dict) :
  ~ In k (map fst d) -> dict_get k d = None.
Proof.
  induction d as [|[k0 v] d IH]; simpl; [reflexivity|].
  intros H. destruct (String.eqb k k0) eqn:Hk.
  - apply String.eqb_eq in Hk. elim H. now left.
  - apply IH. tauto.
Qed.

(** With distinct keys the order of the items does not matter. *)
Lemma dict_get_perm (k : string) (d1 d2 : dict) :
  NoDup (map fst d1) -> Permutation d1 d2 -> dict_get k d1 = dict_get k d2.
Proof.
  intros Hnd Hp. induction Hp as [|[k0 v] l l' Hp IH
                                  |[k1 v1] [k2 v2] l|l l' l'' Hp1 IH1 Hp2 IH2].
  - reflexivity.
  - simpl. inversion Hnd; subst. now rewrite IH.
  - simpl. destruct (String.eqb k k2) eqn:H2, (String.eqb k k1) eqn:H1;
      try reflexivity.
    apply String.eqb_eq in H1, H2. subst. simpl in Hnd.
    inversion Hnd as [|? ? Hin _]; subst. elim Hin. now left.
  - rewrite IH1 by assumption. apply IH2.
    apply (Permutation_NoDup (Permutation_map fst Hp1) Hnd).
Qed.

Lemma vcf_lines_ext (d1 d2 : dict) :
  (forall k, dict_get k d1 = dict_get k d2) -> vcf_lines d1 = vcf_lines d2.
Proof.
  intros H. unfold vcf_lines, append_if_present, get_truthy, dict_get_default.
  now rewrite !H.
Qed.

Lemma fold_append_map {A : Type} (f : A -> string) (xs : list A)
      (lines : list string) :
  fold_left (fun lines x => list_append lines (f x)) xs lines
  = (lines ++ map f xs)%list.
Proof.
  revert lines. induction xs as [|x xs IH]; intros lines; simpl.
  - now rewrite app_nil_r.
  - rewrite IH. unfold list_append. now rewrite <- app_assoc.
Qed.

Lemma normalize_fold (region : string) (items : list pyval)
      (acc : list string) :
  fold_left (normalize_step region) items acc
  = (acc ++ normalized region items)%list.
Proof.
  revert acc. induction items as [|x items IH]; intros acc; simpl.
  - now rewrite app_nil_r.
  - rewrite IH. unfold normalize_step, normalized, survives, e164_of.
    cbn [filter].
    destruct (phonenumbers_parse x region) as [p|] eqn:Hp; [|reflexivity].
    destruct (phonenumbers_is_valid_number p); [|reflexivity].
    cbn [map]. rewrite Hp. unfold list_append. now rewrite <- app_assoc.
Qed.

Lemma normalize_list (region : string) (items : list pyval) :
  normalize_phone_numbers (PList items) region
  = Returns (normalized region items).
Proof.
  unfold normalize_phone_numbers. simpl. now rewrite normalize_fold.
Qed.

Lemma append_present (tag k : string) (d : dict) (lines : list string) :
  append_if_present tag k d lines = (lines ++ present tag k d)%list.
Proof.
  unfold append_if_present, present, list_append.
  destruct (get_truthy k d); [reflexivity | now rewrite app_nil_r].
Qed.

(** The serializer, one group of lines after the other. *)
Lemma vcf_lines_groups (d : dict) :
  vcf_lines d
  = (n <-- name_part d ;;
     titles <-- py_iter (dict_get_default "titles" (PList []) d) ;;
     phones <-- normalize_phone_numbers
                  (dict_get_default "phone_numbers" (PList []) d) "BD" ;;
     Returns (vcf_groups d n titles phones)).
Proof.
  unfold vcf_lines, name_part.
  assert (Hn : forall name,
             (let parts := split " " (Some 1) name in
              let first := nth 0 parts "" in
              let last := if (1 <? List.length parts)%nat
                          then nth 1 parts "" else "" in
              ["N:" ++ last ++ ";" ++ first ++ ";;;"; "FN:" ++ name])
             = name_lines (Some name)).
  { intros name. cbn zeta. unfold name_lines.
    pose proof (split_once_first_space name) as H. cbn zeta in H.
    destruct (split_first_space name) as [a b].
    injection H as -> ->. reflexivity. }
  destruct (get_truthy "name" d) as [[| | | |name| |]|]; try reflexivity.
  - cbn [obind list_append app]. specialize (Hn name). cbn zeta in Hn.
    destruct (py_iter _) as [titles|]; [|reflexivity]. cbn [obind].
    destruct (normalize_phone_numbers _ _) as [phones|]; [|reflexivity].
    cbn [obind]. rewrite !append_present, !fold_append_map.
    unfold vcf_groups, list_append. rewrite <- Hn.
    cbn [List.concat app]. rewrite <- !app_assoc. reflexivity.
  - cbn [obind].
    destruct (py_iter _) as [titles|]; [|reflexivity]. cbn [obind].
    destruct (normalize_phone_numbers _ _) as [phones|]; [|reflexivity].
    cbn [obind]. rewrite !append_present, !fold_append_map.
    unfold vcf_groups, list_append.
    cbn [List.concat app]. rewrite <- !app_assoc. reflexivity.
Qed.

(** *** Records of the declared shape *)

Lemma strings_of_str (l : list pyval) :
  forallb is_str l = true -> l = map PStr (strings_of l).
Proof.
  induction l as [|[] l IH]; simpl; intros H; try discriminate;
    [reflexivity | now rewrite <- IH].
Qed.

Lemma name_part_shaped (d : dict) :
  str_or_null (dict_get "name" d) = true ->
  name_part d = Returns (name_lines (str_field "name" d)).
Proof.
  unfold name_part, get_truthy, str_field.
  destruct (dict_get "name" d) as [[| | | |[|c s]| |]|]; simpl;
    intros H; try discriminate; reflexivity.
Qed.

Lemma present_shaped (tag k : string) (d : dict) :
  str_or_null (dict_get k d) = true ->
  present tag k d = optional_line tag (str_field k d).
Proof.
  unfold present, get_truthy, str_field.
  destruct (dict_get k d) as [[| | | |[|c s]| |]|]; simpl;
    intros H; try discriminate; reflexivity.
Qed.

Lemma iter_shaped (k : string) (d : dict) :
  str_list (dict_get k d) = true ->
  py_iter (dict_get_default k (PList []) d)
  = Returns (map PStr (list_field k d)).
Proof.
  unfold dict_get_default, list_field.
  destruct (dict_get k d) as [[| | | | |l|]|]; simpl;
    intros H; try discriminate; [|reflexivity].
  now rewrite <- strings_of_str.
Qed.

Lemma well_shaped_fields (d : dict) :
  well_shaped d = true ->
  (forall k, In k string_fields -> str_or_null (dict_get k d) = true)
  /\ (forall k, In k list_fields -> str_list (dict_get k d) = true).
Proof.
  unfold well_shaped. rewrite andb_true_iff, !forallb_forall. tauto.
Qed.

(** A record of the declared shape is laid out in the fixed order. *)
Lemma vcf_lines_shaped (d : dict) :
  well_shaped d = true -> vcf_lines d = Returns (vcard_layout d).
Proof.
  intros H. apply well_shaped_fields in H as [Hs Hl].
  rewrite vcf_lines_groups.
  rewrite name_part_shaped by (apply Hs; simpl; tauto). cbn [obind].
  rewrite iter_shaped by (apply Hl; simpl; tauto). cbn [obind].
  unfold normalize_phone_numbers.
  rewrite iter_shaped by (apply Hl; simpl; tauto). cbn [obind].
  rewrite normalize_fold. cbn [app].
  unfold vcf_groups, vcard_layout.
  rewrite !present_shaped by (apply Hs; simpl; tauto).
  rewrite map_map. reflexivity.
Qed.

(** *** Lines of a field that is missing or falsy *)

Lemma iter_falsy (k : string) (d : dict) (items : list pyval) :
  get_truthy k d = None ->
  py_iter (dict_get_default k (PList []) d) = Returns items -> items = [].
Proof.
  unfold get_truthy, dict_get_default.
  destruct (dict_get k d) as [[| | | |[|c s]|[|x l]|[|x l]]|]; simpl;
    intros H1 H2; try discriminate; now injection H2.
Qed.

Lemma normalize_falsy (k : string) (d : dict) (phones : list string) :
  get_truthy k d = None ->
  normalize_phone_numbers (dict_get_default k (PList []) d) "BD"
  = Returns phones -> phones = [].
Proof.
  unfold normalize_phone_numbers. intros Hk H.
  destruct (py_iter _) as [items|] eqn:Hi; [|discriminate].
  rewrite (iter_falsy _ _ _ Hk Hi) in H. simpl in H. now injection H.
Qed.

Lemma name_part_falsy (d : dict) (n : list string) :
  get_truthy "name" d = None -> name_part d = Returns n -> n = [].
Proof. unfold name_part. intros ->. now injection 1. Qed.

Lemma name_part_lines (d : dict) (n : list string) :
  name_part d = Returns n ->
  n = [] \/ exists x y, n = ["N:" ++ x; "FN:" ++ y].
Proof.
  unfold name_part, name_lines.
  destruct (get_truthy "name" d) as [[| | | |name| |]|]; try discriminate.
  - destruct (split_first_space name) as [a b]. injection 1 as <-.
    right. now exists (b ++ ";" ++ a ++ ";;;"), name.
  - injection 1 as <-. now left.
Qed.

Lemma present_lines (tag k : string) (d : dict) :
  present tag k d = [] \/ exists x, present tag k d = [tag ++ x].
Proof.
  unfold present. destruct (get_truthy k d) as [v|]; [right | now left].
  now exists (fmt v).
Qed.

Lemma present_falsy (tag k : string) (d : dict) :
  get_truthy k d = None -> present tag k d = [].
Proof. unfold present. now intros ->. Qed.

Ltac each_tag Hin :=
  unfold field_tags in Hin; cbn [In] in Hin;
  repeat (destruct Hin as [Hin|Hin]; [injection Hin as <- <-|]);
  try contradiction.

Lemma header_tag_free (k tag : string) :
  In (k, tag) field_tags ->
  Forall (fun l => startswith l tag = false) ["BEGIN:VCARD"; "VERSION:3.0"].
Proof. intros Hin. each_tag Hin; repeat constructor. Qed.

Lemma footer_tag_free (k tag : string) :
  In (k, tag) field_tags ->
  Forall (fun l => startswith l tag = false) ["END:VCARD"].
Proof. intros Hin. each_tag Hin; repeat constructor. Qed.

Lemma name_tag_free (d : dict) (k tag : string) (n : list string) :
  In (k, tag) field_tags -> get_truthy k d = None ->
  name_part d = Returns n ->
  Forall (fun l => startswith l tag = false) n.
Proof.
  intros Hin Hk Hn.
  destruct (name_part_lines d n Hn) as [->|[x [y ->]]]; [constructor|].
  each_tag Hin; try (repeat constructor; fail);
    now discriminate (name_part_falsy d _ Hk Hn).
Qed.

Lemma titles_tag_free (d : dict) (k tag : string) (titles : list pyval) :
  In (k, tag) field_tags -> get_truthy k d = None ->
  py_iter (dict_get_default "titles" (PList []) d) = Returns titles ->
  Forall (fun l => startswith l tag = false)
         (map (fun title => "TITLE:" ++ fmt title) titles).
Proof.
  intros Hin Hk Ht. apply Forall_forall. intros l Hl.
  apply in_map_iff in Hl as [x [<- Hx]].
  each_tag Hin; try reflexivity.
  rewrite (iter_falsy _ d titles Hk Ht) in Hx. contradiction.
Qed.

Lemma phones_tag_free (d : dict) (k tag : string) (phones : list string) :
  In (k, tag) field_tags -> get_truthy k d = None ->
  normalize_phone_numbers (dict_get_default "phone_numbers" (PList []) d) "BD"
  = Returns phones ->
  Forall (fun l => startswith l tag = false)
         (map (fun phone => "TEL;TYPE=CELL:" ++ phone) phones).
Proof.
  intros Hin Hk Hp. apply Forall_forall. intros l Hl.
  apply in_map_iff in Hl as [x [<- Hx]].
  each_tag Hin; try reflexivity.
  rewrite (normalize_falsy _ d phones Hk Hp) in Hx. contradiction.
Qed.

Lemma present_tag_free (d : dict) (k tag k' tag' : string) :
  In (k, tag) field_tags -> get_truthy k d = None ->
  In (k', tag') [("organization", "ORG:"); ("email", "EMAIL:");
                 ("address", "ADR:;;"); ("url", "URL:")] ->
  Forall (fun l => startswith l tag = false) (present tag' k' d).
Proof.
  intros Hin Hk Hin'. unfold present.
  destruct (get_truthy k' d) as [v|] eqn:Hv; [|constructor].
  constructor; [|constructor].
  cbn [In] in Hin'.
  repeat (destruct Hin' as [Hin'|Hin']; [injection Hin' as <- <-|]);
    try contradiction;
    (each_tag Hin; try reflexivity; congruence).
Qed.

(** No line starts with the tag of a field that is missing or falsy. *)
Lemma no_tag_line (d : dict) (k tag : string) (lines : list string) :
  In (k, tag) field_tags ->
  get_truthy k d = None ->
  vcf_lines d = Returns lines ->
  Forall (fun l => startswith l tag = false) lines.
Proof.
  intros Hin Hk. rewrite vcf_lines_groups.
  destruct (name_part d) as [n|] eqn:Hn; [|discriminate]. cbn [obind].
  destruct (py_iter _) as [titles|] eqn:Ht; [|discriminate]. cbn [obind].
  destruct (normalize_phone_numbers _ _) as [phones|] eqn:Hp; [|discriminate].
  cbn [obind]. injection 1 as <-. unfold vcf_groups. cbn [List.concat].
  rewrite app_nil_r.
  rewrite !Forall_app. repeat split.
  - exact (header_tag_free k tag Hin).
  - exact (name_tag_free d k tag n Hin Hk Hn).
  - exact (titles_tag_free d k tag titles Hin Hk Ht).
  - apply (present_tag_free d k tag); simpl; auto.
  - exact (phones_tag_free d k tag phones Hin Hk Hp).
  - apply (present_tag_free d k tag); simpl; auto.
  - apply (present_tag_free d k tag); simpl; auto.
  - apply (present_tag_free d k tag); simpl; auto.
  - exact (footer_tag_free k tag Hin).
Qed.

End SerializerFacts.

(* ================================================================= *)
(** ** The serializer and the phone normalizer: checked properties *)

Section SerializerProperties.
Context {E : Externals}.

Lemma create_of_lines (d : dict) (lines : list string) :
  vcf_lines d = Returns lines -> create_vcf_content d = Returns (join nl lines).
Proof. unfold create_vcf_content. now intros ->. Qed.

Lemma get_truthy_absent (k : string) (d : dict) :
  dict_get k d = None -> get_truthy k d = None.
Proof. unfold get_truthy. now intros ->. Qed.

(** The lines depend on the dictionary through the truthy value of the
    string fields and the iterated value of the list fields only. *)
Lemma vcf_lines_fields (d1 d2 : dict) :
  (forall k, In k string_fields -> get_truthy k d1 = get_truthy k d2) ->
  (forall k, In k list_fields ->
             dict_get_default k (PList []) d1 = dict_get_default k (PList []) d2) ->
  vcf_lines d1 = vcf_lines d2.
Proof.
  intros Hs Hl. unfold vcf_lines, append_if_present.
  rewrite (Hs "name"), (Hs "organization"), (Hs "email"), (Hs "address"),
    (Hs "url"), (Hl "titles"), (Hl "phone_numbers");
    try reflexivity; simpl; tauto.
Qed.

(** C3. For every contact record of the declared shape the emitted lines
    are, in this order, the header, the N and FN lines, one TITLE line per
    title in input order, the ORG line, one TEL line per surviving
    normalized phone, the EMAIL, ADR and URL lines and the footer; the
    result is these lines joined by newlines; it does not change when the
    fields of the record are given in another order; and a field that is
    absent contributes no line (no emitted line starts with its tag).  When
    no emitted line holds a newline, the lines of the returned text are
    the emitted lines. *)
Theorem serializer_fixed_order (d : dict) :
  well_shaped d = true ->
  vcf_lines d = Returns (vcard_layout d)
  /\ create_vcf_content d = Returns (join nl (vcard_layout d))
  /\ (forall d', NoDup (map fst d) -> Permutation d d' ->
                 create_vcf_content d' = create_vcf_content d)
  /\ (forall k tag, In (k, tag) field_tags -> dict_get k d = None ->
                    Forall (fun l => startswith l tag = false)
                           (vcard_layout d))
  /\ (Forall (fun l => contains nl l = false) (vcard_layout d) ->
      split nl None (join nl (vcard_layout d)) = vcard_layout d).
Proof.
  intros Hd. pose proof (vcf_lines_shaped d Hd) as Hl.
  split; [exact Hl|]. split; [now apply create_of_lines|].
  split; [|split; [|apply split_join; discriminate]].
  - intros d' Hnd Hp. unfold create_vcf_content.
    rewrite (vcf_lines_ext d' d); [reflexivity|].
    intros k. symmetry. now apply dict_get_perm.
  - intros k tag Hin Hk.
    apply (no_tag_line d k tag); auto using get_truthy_absent.
Qed.

(** C4. The record whose only field is the name "John Doe" is serialized
    as the five lines BEGIN:VCARD, VERSION:3.0, N:Doe;John;;;, FN:John Doe,
    END:VCARD joined by newlines; and for every record of the declared
    shape with a non-empty name the third and fourth lines are
    N:<last>;<first>;;; and FN:<name>, where <first> holds no space and
    either the name is <first>, a space and <last>, or the name holds no
    space, <first> is the name and <last> is empty. *)
Theorem name_split_at_first_space :
  create_vcf_content [("name", PStr "John Doe")]
  = Returns (join nl ["BEGIN:VCARD"; "VERSION:3.0"; "N:Doe;John;;;";
                      "FN:John Doe"; "END:VCARD"])
  /\ forall d name,
      well_shaped d = true ->
      dict_get "name" d = Some (PStr name) -> name <> "" ->
      exists first last rest,
        vcf_lines d
        = Returns ("BEGIN:VCARD" :: "VERSION:3.0"
                   :: ("N:" ++ last ++ ";" ++ first ++ ";;;")
                   :: ("FN:" ++ name) :: rest)
        /\ create_vcf_content d
           = Returns (join nl ("BEGIN:VCARD" :: "VERSION:3.0"
                               :: ("N:" ++ last ++ ";" ++ first ++ ";;;")
                               :: ("FN:" ++ name) :: rest))
        /\ contains " " first = false
        /\ ((contains " " name = true /\ name = first ++ " " ++ last)
            \/ (contains " " name = false /\ first = name /\ last = "")).
Proof.
  split; [reflexivity|].
  intros d name Hd Hn Hne.
  pose proof (vcf_lines_shaped d Hd) as Hl.
  unfold vcard_layout, str_field in Hl. rewrite Hn in Hl.
  destruct name as [|c s]; [now elim Hne|].
  cbn [name_lines List.concat app] in Hl.
  pose proof (split_first_space_spec (String c s)) as Hs.
  destruct (split_first_space (String c s)) as [first last].
  cbn [app] in Hl. exists first, last.
  eexists. split; [exact Hl|]. split; [now apply create_of_lines|]. exact Hs.
Qed.

(** C6. For every list of input strings and every default region the
    normalizer returns; its result is, in input order, the E.164 format of
    exactly those inputs that parse and are valid, the others being
    dropped; so the result is no longer than the input. *)
Theorem normalizer_keeps_valid_in_order (numbers : list string)
        (default_region : string) :
  exists kept,
    normalize_phone_numbers (PList (map PStr numbers)) default_region
    = Returns (map (e164_of default_region) kept)
    /\ kept = filter (survives default_region) (map PStr numbers)
    /\ (forall num,
          In num kept <->
          In num (map PStr numbers)
          /\ exists parsed,
               phonenumbers_parse num default_region = Some parsed
               /\ phonenumbers_is_valid_number parsed = true)
    /\ Forall (fun num =>
                 exists parsed,
                   phonenumbers_parse num default_region = Some parsed
                   /\ e164_of default_region num
                      = phonenumbers_format_number parsed E164) kept
    /\ (List.length (map (e164_of default_region) kept)
        <= List.length numbers)%nat.
Proof.
  exists (filter (survives default_region) (map PStr numbers)).
  split; [apply normalize_list|]. split; [reflexivity|].
  assert (Hs : forall num,
             survives default_region num = true <->
             exists parsed,
               phonenumbers_parse num default_region = Some parsed
               /\ phonenumbers_is_valid_number parsed = true).
  { intros num. unfold survives.
    destruct (phonenumbers_parse num default_region) as [p|].
    - split; [intros H; now exists p | now intros [q [[= <-] H]]].
    - split; [discriminate | now intros [q [H _]]]. }
  split; [|split].
  - intros num. now rewrite filter_In, Hs.
  - apply Forall_forall. intros num Hin. apply filter_In in Hin as [_ Hk].
    apply Hs in Hk as [p [Hp _]]. exists p. unfold e164_of. now rewrite Hp.
  - rewrite length_map.
    rewrite <- (length_map PStr numbers). apply filter_length_le.
Qed.

(** C9. A field whose value is the empty string (for name, organization,
    email, address, url) or the empty list (for titles, phone_numbers) is
    serialized exactly as if the field were missing, and no emitted line
    starts with a tag of that field; in particular an empty name gives no
    N: and no FN: line. *)
Theorem empty_field_like_absent (d : dict) (k : string) :
  (In k string_fields /\ dict_get k d = Some (PStr ""))
  \/ (In k list_fields /\ dict_get k d = Some (PList [])) ->
  vcf_lines d = vcf_lines (dict_remove k d)
  /\ create_vcf_content d = create_vcf_content (dict_remove k d)
  /\ forall tag lines,
      In (k, tag) field_tags -> vcf_lines d = Returns lines ->
      Forall (fun l => startswith l tag = false) lines.
Proof.
  intros Hk.
  assert (Hfalsy : get_truthy k d = None).
  { unfold get_truthy. now destruct Hk as [[_ ->]|[_ ->]]. }
  assert (Hdef : dict_get_default k (PList []) d = PList []
                 \/ In k string_fields).
  { unfold dict_get_default. destruct Hk as [[H _]|[_ ->]]; auto. }
  assert (Heq : vcf_lines d = vcf_lines (dict_remove k d)).
  { apply vcf_lines_fields; intros k' Hk'.
    - unfold get_truthy. rewrite dict_get_remove.
      destruct (String.eqb k k') eqn:Hkk; [|reflexivity].
      apply String.eqb_eq in Hkk as <-. exact Hfalsy.
    - unfold dict_get_default at 2. rewrite dict_get_remove.
      destruct (String.eqb k k') eqn:Hkk; [|reflexivity].
      apply String.eqb_eq in Hkk as <-.
      destruct Hdef as [Hdef|Hin]; [exact Hdef|].
      exfalso. revert Hin Hk'. unfold string_fields, list_fields. simpl.
      intuition (subst; discriminate). }
  split; [exact Heq|]. split.
  - unfold create_vcf_content. now rewrite Heq.
  - intros tag lines Hin Hl. now apply (no_tag_line d k tag).
Qed.

(** C10, as amended. For every contact record in which name, organization,
    email, address and url, when present and not null, are strings and
    titles and phone_numbers, when present, are lists of strings (null not
    allowed), the serializer returns a string; and a record that carries
    null for titles or phone_numbers next to a well-formed name makes the
    serializer raise the error of iterating a non-iterable value. *)
Theorem serializer_total_on_shaped :
  (forall d, well_shaped d = true ->
             exists text, create_vcf_content d = Returns text)
  /\ (forall d k, In k list_fields -> dict_get k d = Some PNone ->
                  str_or_null (dict_get "name" d) = true ->
                  create_vcf_content d = Raises TypeError).
Proof.
  split.
  - intros d Hd. exists (join nl (vcard_layout d)).
    apply create_of_lines, vcf_lines_shaped, Hd.
  - intros d k Hk Hnull Hname. unfold create_vcf_content.
    rewrite vcf_lines_groups, (name_part_shaped d Hname). cbn [obind].
    unfold list_fields in Hk. cbn [In] in Hk.
    destruct Hk as [<-|[<-|[]]].
    + unfold dict_get_default at 1. now rewrite Hnull.
    + destruct (py_iter (dict_get_default "titles" _ d)) as [titles|e] eqn:Ht.
      * cbn [obind]. unfold dict_get_default at 1. now rewrite Hnull.
      * cbn [obind]. unfold dict_get_default, py_iter in Ht.
        destruct (dict_get "titles" d) as [[]|]; congruence.
Qed.

End SerializerProperties.

(* ================================================================= *)
(** ** The handlers: checked properties *)

Ltac run_handler :=
  cbv beta iota zeta delta
      [run bind ret raise lift emit try_except chat list_append app negb
       fst snd
       BackendApp.upload_image BackendApp.encode_image
       BackendApp.extract_business_card_info BackendApp.generate_vcf
       ApiUpload.do_POST ApiUpload.encode_image_data
       ApiUpload.extract_business_card_info ApiGenerateVcf.do_POST
       access_control_allow_origin].

Ltac run_with H := rewrite H; run_handler.

Section HandlerProperties.
Context {E : Externals}.

Lemma classify_is_card (content : string) :
  classify content = IsCard <-> startswith (is_card content) "yes" = true.
Proof.
  unfold classify. destruct (startswith (is_card content) "yes");
    split; intros H; try reflexivity; discriminate H.
Qed.

Lemma classify_not_card (content : string) :
  classify content = NotCard <-> startswith (is_card content) "yes" = false.
Proof.
  unfold classify. destruct (startswith (is_card content) "yes");
    split; intros H; try reflexivity; discriminate H.
Qed.

(** The serverless parser answers a text that is not JSON with the
    placeholder record. *)
Lemma api_extract_placeholder (w : World) (base64_img raw : string) :
  chat_completions_create w (ExtractionRequest base64_img) = Returns raw ->
  json_loads (unwrap_content raw) = None ->
  run (ApiUpload.extract_business_card_info w base64_img)
  = (Returns ApiUpload.placeholder, [ChatCall (ExtractionRequest base64_img)]).
Proof. intros Hc Hj. run_handler. run_with Hc. now run_with Hj. Qed.

(** The parser of the FastAPI application lets the decoding error out. *)
Lemma backend_extract_raises (w : World) (base64_img raw : string) :
  chat_completions_create w (ExtractionRequest base64_img) = Returns raw ->
  json_loads (unwrap_content raw) = None ->
  run (BackendApp.extract_business_card_info w base64_img)
  = (Raises JSONDecodeError, [ChatCall (ExtractionRequest base64_img)]).
Proof. intros Hc Hj. run_handler. run_with Hc. now run_with Hj. Qed.

(** C1, at the failing input. In [src/backend/app.py] an extraction answer
    that is not JSON does not yield the placeholder record: the parser
    raises, and the upload handler answers with an error object that
    carries the decoding error. *)
Theorem backend_parse_failure_reaches_handler
        (w : World) (file : BackendApp.UploadFile)
        (ct base64_img answer raw : string) :
  BackendApp.content_type file = Some ct ->
  startswith ct "image/" = true ->
  jpeg_base64 w (BackendApp.file_bytes file) = Returns base64_img ->
  chat_completions_create w (ClassificationRequest base64_img)
  = Returns answer ->
  classify answer = IsCard ->
  chat_completions_create w (ExtractionRequest base64_img) = Returns raw ->
  json_loads (unwrap_content raw) = None ->
  run (BackendApp.extract_business_card_info w base64_img)
  = (Raises JSONDecodeError, [ChatCall (ExtractionRequest base64_img)])
  /\ run (BackendApp.upload_image w file)
     = (Returns (ErrorObject (ErrorProcessingImage JSONDecodeError)),
        [ChatCall (ClassificationRequest base64_img);
         ChatCall (ExtractionRequest base64_img)]).
Proof.
  intros Hct Himg Henc Hcls Hyes Hext Hjson.
  split; [now apply backend_extract_raises with (raw := raw)|].
  apply classify_is_card in Hyes.
  run_handler. run_with Hct. run_with Himg. run_with Henc. run_with Hcls.
  run_with Hyes. run_with Hext. now run_with Hjson.
Qed.

(** The serverless handler goes on to the extraction when the
    classification call raises. *)
Lemma api_classification_fail_open
      (w : World) (req : ApiUpload.upload_request)
      (c : ascii) (image_data base64_img : string) (e : exn) :
  ApiUpload.image_part req = Returns (Some (String c image_data)) ->
  Image_open w (String c image_data) = Returns tt ->
  jpeg_base64 w (String c image_data) = Returns base64_img ->
  chat_completions_create w (ClassificationRequest base64_img) = Raises e ->
  exists written,
    run (ApiUpload.do_POST w req)
    = (Returns tt,
       [SendResponse 200;
        SendHeader "Content-type" "application/json";
        SendHeader "Access-Control-Allow-Origin" "*";
        SendHeader "Access-Control-Allow-Methods" "POST, OPTIONS";
        SendHeader "Access-Control-Allow-Headers" "Content-Type";
        EndHeaders;
        ChatCall (ClassificationRequest base64_img);
        Print (ClassificationError e);
        ChatCall (ExtractionRequest base64_img);
        WfileWrite written])
    /\ match chat_completions_create w (ExtractionRequest base64_img) with
       | Returns raw =>
           match json_loads (unwrap_content raw) with
           | Some data => written = Data data
           | None => written = Data ApiUpload.placeholder
           end
       | Raises JSONDecodeError => written = Data ApiUpload.placeholder
       | Raises e' => written = ErrorObject (ErrorExtracting (OpenAIAPIError e'))
       end.
Proof.
  intros Hreq Hopen Henc Hcls.
  run_handler. run_with Hreq. run_with Hopen. run_with Henc. run_with Hcls.
  destruct (chat_completions_create w (ExtractionRequest base64_img))
    as [raw|e'] eqn:Hext.
  - destruct (json_loads (unwrap_content raw)) as [data|] eqn:Hj;
      eexists; split; reflexivity.
  - destruct e'; eexists; split; reflexivity.
Qed.

(** C2, at the failing input. In [src/backend/app.py] a classification
    call that raises ends the request: the handler answers with an error
    object that carries the failure and the extraction call is not made. *)
Theorem backend_classification_failure_ends_request
        (w : World) (file : BackendApp.UploadFile)
        (ct base64_img : string) (e : exn) :
  BackendApp.content_type file = Some ct ->
  startswith ct "image/" = true ->
  jpeg_base64 w (BackendApp.file_bytes file) = Returns base64_img ->
  chat_completions_create w (ClassificationRequest base64_img) = Raises e ->
  run (BackendApp.upload_image w file)
  = (Returns (ErrorObject (ErrorProcessingImage e)),
     [ChatCall (ClassificationRequest base64_img)]).
Proof.
  intros Hct Himg Henc Hcls.
  run_handler. run_with Hct. run_with Himg. run_with Henc. now run_with Hcls.
Qed.

(** *** Unwrapping a fenced answer *)

Lemma strip_by_split (p : ascii -> bool) (s : string) :
  exists l r, s = l ++ strip_by p s ++ r
              /\ all_chars p l = true /\ all_chars p r = true.
Proof.
  unfold strip_by.
  destruct (lstrip_by_split p s) as [l [Hl Hpl]].
  destruct (rstrip_by_split p (lstrip_by p s)) as [r [Hr Hpr]].
  exists l, r. split; [|now split]. rewrite <- Hr. exact Hl.
Qed.

Lemma rstrip_by_last (p : ascii -> bool) (s x : string) (c : ascii) :
  rstrip_by p s = x ++ String c "" -> p c = false.
Proof.
  revert x. induction s as [|c0 s IH]; intros x; simpl.
  - destruct x; discriminate.
  - destruct (rstrip_by p s) as [|d r] eqn:Hr.
    + destruct (p c0) eqn:Hc0; [destruct x; discriminate|].
      destruct x as [|x0 x]; simpl; [now intros [= <-]|].
      intros [= _ H]. destruct x; discriminate.
    + destruct x as [|x0 x]; simpl; [discriminate|].
      intros [= _ H]. now apply (IH x).
Qed.

Lemma strip_by_ends (p : ascii -> bool) (s : string) :
  (forall c r, strip_by p s = String c r -> p c = false)
  /\ (forall c, ends_with_char (strip_by p s) c -> p c = false).
Proof.
  split.
  - intros c r H. unfold strip_by in H.
    pose proof (lstrip_by_head p s) as Hh.
    destruct (lstrip_by p s) as [|c0 t]; [discriminate|].
    rewrite (rstrip_by_cons p c0 t Hh) in H. now injection H as <- _.
  - intros c [x Hx]. exact (rstrip_by_last p (lstrip_by p s) x c Hx).
Qed.

Lemma unwrap_fenced (text : string) :
  contains "json" text = false ->
  unwrap_content (fenced text) = strip text.
Proof.
  intros Hj. unfold unwrap_content.
  change (fenced text) with ("```json" ++ nl ++ text ++ nl ++ "```").
  assert (Hs : strip ("```json" ++ nl ++ text ++ nl ++ "```")
               = "```json" ++ nl ++ text ++ nl ++ "```").
  { unfold strip, strip_by.
    replace (lstrip_by is_space ("```json" ++ nl ++ text ++ nl ++ "```"))
      with ("```json" ++ nl ++ text ++ nl ++ "```") by reflexivity.
    replace ("```json" ++ nl ++ text ++ nl ++ "```")
      with (("```json" ++ nl ++ text ++ nl ++ "``") ++ "`")
      by (now rewrite !append_assoc).
    apply rstrip_by_keep; [discriminate | reflexivity]. }
  rewrite Hs.
  replace (startswith ("```json" ++ nl ++ text ++ nl ++ "```") fence)
    with true by reflexivity.
  assert (Hb : strip_chars backtick ("```json" ++ nl ++ text ++ nl ++ "```")
               = "json" ++ nl ++ text ++ nl).
  { unfold strip_chars, strip_by.
    replace (lstrip_by _ ("```json" ++ nl ++ text ++ nl ++ "```"))
      with ("json" ++ nl ++ text ++ nl ++ "```") by reflexivity.
    replace ("json" ++ nl ++ text ++ nl ++ "```")
      with ((("json" ++ nl ++ text) ++ nl) ++ "```")
      by (now rewrite !append_assoc).
    rewrite rstrip_by_app by reflexivity.
    rewrite rstrip_by_keep by (discriminate || reflexivity).
    now rewrite !append_assoc. }
  rewrite Hb.
  change ("json" ++ nl ++ text ++ nl) with ("json" ++ (nl ++ text ++ nl)).
  rewrite (split_prefix "son" "j"%char).
  rewrite (split_absent _ _ (contains_json_newline text Hj)).
  cbn [last]. unfold strip. now apply strip_by_padded.
Qed.

(** C5, as amended. When the trimmed answer begins with three backticks,
    the parser removes the backticks at its two ends only (those inside
    stay), then keeps what follows the last [json] when the text holds
    one, and trims again; and a text that holds no [json] and does not
    itself begin with three backticks is read the same wrapped in a fence
    with the [json] tag as unwrapped. *)
Theorem fence_unwrapping :
  (forall raw,
     startswith (strip raw) fence = true ->
     let inner := strip_chars backtick (strip raw) in
     (exists l r, strip raw = l ++ inner ++ r
                  /\ all_chars is_backtick l = true
                  /\ all_chars is_backtick r = true)
     /\ startswith inner backtick = false
     /\ ~ ends_with_char inner "`"
     /\ (contains "json" inner = false -> unwrap_content raw = strip inner)
     /\ (contains "json" inner = true ->
         exists a b,
           inner = a ++ "json" ++ b
           /\ contains "json" b = false
           /\ (forall a' b', inner = a' ++ "json" ++ b' ->
                             (String.length a' <= String.length a)%nat)
           /\ unwrap_content raw = strip b))
  /\ (forall text,
        contains "json" text = false ->
        startswith (strip text) fence = false ->
        unwrap_content (fenced text) = unwrap_content text
        /\ json_loads (unwrap_content (fenced text))
           = json_loads (unwrap_content text)).
Proof.
  split.
  - intros raw Hf. cbv zeta. unfold unwrap_content. rewrite Hf.
    pose proof (strip_by_split is_backtick (strip raw)) as Hsplit.
    destruct (strip_by_ends is_backtick (strip raw)) as [Hhead Hlast].
    change (strip_by is_backtick (strip raw))
      with (strip_chars backtick (strip raw)) in *.
    revert Hsplit Hhead Hlast.
    generalize (strip_chars backtick (strip raw)). intros inner Hsplit Hhead Hlast.
    split; [exact Hsplit|].
    split; [|split].
    + destruct inner as [|c r]; [reflexivity|].
      specialize (Hhead c r eq_refl). unfold startswith, backtick.
      cbn [String.prefix]. destruct (ascii_dec _ c) as [<-|]; [|reflexivity].
      discriminate Hhead.
    + intros Hend. now discriminate (Hlast _ Hend).
    + destruct (last_split "j"%char "son" inner) as [Habs Hocc]. split.
      * intros Hc. now rewrite (Habs Hc).
      * intros Hc. destruct (Hocc Hc) as [_ [a [b [Hab [Hb Hl]]]]].
        exists a, b. split; [exact Hab|]. split; [exact Hb|].
        split; [|now rewrite Hl].
        intros a' b' Hab'. apply (json_last_occurrence a b a' b'); congruence.
  - intros text Hj Hf.
    assert (H : unwrap_content (fenced text) = unwrap_content text).
    { rewrite (unwrap_fenced text Hj). unfold unwrap_content. now rewrite Hf. }
    split; [exact H | now rewrite H].
Qed.

(** The classifier and the upload handlers. *)

(** C8. The answer of the classifier counts as a business card exactly
    when, after leading white space, it begins with the letters y, e, s in
    any case, and as no business card otherwise ("Yes, clearly a card" is a
    card, "no" and "maybe" are not); when it counts as no business card,
    both upload handlers answer with the error object for this case and
    make no extraction call. *)
Theorem classifier_yes_prefix :
  (forall content, classify content = IsCard <-> begins_with_yes content)
  /\ (forall content, classify content = NotCard <-> ~ begins_with_yes content)
  /\ classify "Yes, clearly a card" = IsCard
  /\ classify "no" = NotCard
  /\ classify "maybe" = NotCard
  /\ (forall w file ct base64_img answer,
        BackendApp.content_type file = Some ct ->
        startswith ct "image/" = true ->
        jpeg_base64 w (BackendApp.file_bytes file) = Returns base64_img ->
        chat_completions_create w (ClassificationRequest base64_img)
        = Returns answer ->
        classify answer = NotCard ->
        run (BackendApp.upload_image w file)
        = (Returns (ErrorObject NotBusinessCard),
           [ChatCall (ClassificationRequest base64_img)]))
  /\ (forall w req c image_data base64_img answer,
        ApiUpload.image_part req = Returns (Some (String c image_data)) ->
        Image_open w (String c image_data) = Returns tt ->
        jpeg_base64 w (String c image_data) = Returns base64_img ->
        chat_completions_create w (ClassificationRequest base64_img)
        = Returns answer ->
        classify answer = NotCard ->
        run (ApiUpload.do_POST w req)
        = (Returns tt,
           [SendResponse 200;
            SendHeader "Content-type" "application/json";
            SendHeader "Access-Control-Allow-Origin" "*";
            SendHeader "Access-Control-Allow-Methods" "POST, OPTIONS";
            SendHeader "Access-Control-Allow-Headers" "Content-Type";
            EndHeaders;
            ChatCall (ClassificationRequest base64_img);
            WfileWrite (ErrorObject NotBusinessCard)])).
Proof.
  split; [|split; [|split; [|split; [|split; [|split]]]]];
    try reflexivity.
  - intros content. now rewrite classify_is_card, is_card_yes.
  - intros content. rewrite classify_not_card, <- is_card_yes.
    now destruct (startswith (is_card content) "yes").
  - intros w file ct base64_img answer Hct Himg Henc Hcls Hno.
    apply classify_not_card in Hno.
    run_handler. run_with Hct. run_with Himg. run_with Henc. run_with Hcls.
    now run_with Hno.
  - intros w req c image_data base64_img answer Hreq Hopen Henc Hcls Hno.
    apply classify_not_card in Hno.
    run_handler. run_with Hreq. run_with Hopen. run_with Henc. run_with Hcls.
    now run_with Hno.
Qed.

End HandlerProperties.

Section VCardEndpoint.
Context {E : Externals} {Wi : Wire}.


Lemma named_truthy (d : dict) (name : string) :
  dict_get "name" d = Some (PStr name) -> name <> "" ->
  get_truthy "name" d = Some (PStr name)
  /\ absent_or_empty "name" d = false.
Proof.
  intros Hn Hne. unfold get_truthy, absent_or_empty. rewrite Hn.
  destruct name; [now elim Hne | now split].
Qed.

(** What [generate_vcf] of [src/backend/app.py] does with a record of the
    declared shape that has a name, by the outcome of encoding the
    header. *)
Lemma backend_named (d : dict) (name : string) :
  well_shaped d = true ->
  dict_get "name" d = Some (PStr name) -> name <> "" ->
  exists vcf,
    create_vcf_content d = Returns vcf
    /\ run (BackendApp.generate_vcf (Returns (PDict d)))
       = match encode_latin1 (disposition (sanitize name)) with
         | Returns _ =>
             (Returns {| BackendApp.content := Text vcf;
                         BackendApp.media_type := "text/vcard";
                         BackendApp.status_code := 200;
                         BackendApp.headers :=
                           [("Content-Disposition",
                             disposition (sanitize name))] |},
              [Print (Msg "Received request to generate vCard");
               Print (RequestData (PDict d));
               Print (GeneratedVCard vcf);
               Print (Filename (sanitize name))])
         | Raises e =>
             (Returns {| BackendApp.content := ErrorObject (ExnText e);
                         BackendApp.media_type := "application/json";
                         BackendApp.status_code := 500;
                         BackendApp.headers := [] |},
              [Print (Msg "Received request to generate vCard");
               Print (RequestData (PDict d));
               Print (GeneratedVCard vcf);
               Print (Filename (sanitize name));
               Print (ErrorGenerating e)])
         end.
Proof.
  intros Hd Hn Hne.
  pose proof (create_of_lines d _ (vcf_lines_shaped d Hd)) as Hvcf.
  exists (join nl (vcard_layout d)). split; [exact Hvcf|].
  destruct (named_truthy d name Hn Hne) as [Hg _].
  run_handler. run_with Hg. run_with Hvcf.
  unfold dict_get_default. run_with Hn.
  now destruct (encode_latin1 (disposition (sanitize name))).
Qed.

(** The same for [do_POST] of [src/api/generate-vcf.py]. *)
Lemma api_named (text : string) (d : dict) (name : string) :
  json_loads text = Some (PDict d) ->
  well_shaped d = true ->
  dict_get "name" d = Some (PStr name) -> name <> "" ->
  exists vcf,
    create_vcf_content d = Returns vcf
    /\ run (ApiGenerateVcf.do_POST (Returns text))
       = (Returns tt,
          ([SendResponse 200;
            SendHeader "Content-type" "text/vcard";
            SendHeader "Access-Control-Allow-Origin" "*"]
           ++ match encode_latin1
                      (header_line "Content-Disposition"
                                   (disposition (sanitize name))) with
              | Returns _ =>
                  [SendHeader "Content-Disposition"
                              (disposition (sanitize name));
                   EndHeaders;
                   WfileWrite (Text vcf)]
              | Raises e =>
                  [SendResponse 500;
                   SendHeader "Content-type" "application/json";
                   SendHeader "Access-Control-Allow-Origin" "*";
                   EndHeaders;
                   WfileWrite (ErrorObject (ExnText e))]
              end)%list).
Proof.
  intros Hj Hd Hn Hne.
  pose proof (create_of_lines d _ (vcf_lines_shaped d Hd)) as Hvcf.
  exists (join nl (vcard_layout d)). split; [exact Hvcf|].
  destruct (named_truthy d name Hn Hne) as [Hg _].
  run_handler. run_with Hj. run_with Hg. run_with Hvcf.
  unfold dict_get_default. run_with Hn.
  now destruct (encode_latin1 _).
Qed.


(** C7, at the failing input. A record of the declared shape whose name is
    not empty does not get its card when the Content-Disposition header
    made from the name does not encode as Latin-1, as for a name in
    Bengali script: [generate_vcf] of [src/backend/app.py] answers with
    status 500 and the encoding error, and [do_POST] of
    [src/api/generate-vcf.py], which has sent the status line 200 and two
    headers by then, sends a second status line 500 and the encoding
    error as body. *)
Theorem vcf_endpoints_fail_on_unencodable_name
        (text : string) (d : dict) (name : string) (e1 e2 : exn) :
  json_loads text = Some (PDict d) ->
  well_shaped d = true ->
  dict_get "name" d = Some (PStr name) -> name <> "" ->
  encode_latin1 (disposition (sanitize name)) = Raises e1 ->
  encode_latin1 (header_line "Content-Disposition"
                             (disposition (sanitize name))) = Raises e2 ->
  fst (run (BackendApp.generate_vcf (Returns (PDict d))))
  = Returns {| BackendApp.content := ErrorObject (ExnText e1);
               BackendApp.media_type := "application/json";
               BackendApp.status_code := 500;
               BackendApp.headers := [] |}
  /\ run (ApiGenerateVcf.do_POST (Returns text))
     = (Returns tt,
        [SendResponse 200;
         SendHeader "Content-type" "text/vcard";
         SendHeader "Access-Control-Allow-Origin" "*";
         SendResponse 500;
         SendHeader "Content-type" "application/json";
         SendHeader "Access-Control-Allow-Origin" "*";
         EndHeaders;
         WfileWrite (ErrorObject (ExnText e2))]).
Proof.
  intros Hj Hd Hn Hne H1 H2.
  destruct (backend_named d name Hd Hn Hne) as [vcf [_ Hb]].
  destruct (api_named text d name Hj Hd Hn Hne) as [vcf' [_ Hapi]].
  rewrite Hb, Hapi, H1, H2. split; reflexivity.
Qed.

End VCardEndpoint.

(* ================================================================= *)
(** ** The properties at concrete requests *)

Section Examples.

Local Existing Instance Sample.externals.
Local Existing Instance Sample.wire.

Example normalizer_examples :
  normalize_phone_numbers
    (PList [PStr "+8801712345678"; PStr "not-a-phone"; PStr "01712345678"])
    "BD"
  = Returns ["+8801712345678"; "+8801712345678"].
Proof. reflexivity. Qed.

Example end_to_end :
  json_loads Sample.request
  = Some (PDict [("name", PStr "Jane Roe");
                 ("phone_numbers", PList [PStr "01812345678"])])
  /\ fst (run (BackendApp.generate_vcf
                 (Returns (PDict [("name", PStr "Jane Roe");
                                  ("phone_numbers",
                                   PList [PStr "01812345678"])]))))
  = Returns {| BackendApp.content :=
                 Text (join nl ["BEGIN:VCARD"; "VERSION:3.0"; "N:Roe;Jane;;;";
                                "FN:Jane Roe"; "TEL;TYPE=CELL:+8801812345678";
                                "END:VCARD"]);
               BackendApp.media_type := "text/vcard";
               BackendApp.status_code := 200;
               BackendApp.headers :=
                 [("Content-Disposition",
                   "attachment; filename=Jane_Roe.vcf")] |}.
Proof. split; vm_compute; reflexivity. Qed.

Lemma backend_parse_failure_reaches_handler_witness :
  run (BackendApp.upload_image
         (Sample.world (Returns "yes") (Returns "not json")) Sample.jpeg)
  = (Returns (ErrorObject (ErrorProcessingImage JSONDecodeError)),
     [ChatCall (ClassificationRequest "aW1hZ2U=");
      ChatCall (ExtractionRequest "aW1hZ2U=")]).
Proof.
  refine (proj2 (backend_parse_failure_reaches_handler
                   (Sample.world (Returns "yes") (Returns "not json"))
                   Sample.jpeg "image/jpeg" "aW1hZ2U=" "yes" "not json"
                   _ _ _ _ _ _ _)); reflexivity.
Defined.

Lemma backend_classification_failure_ends_request_witness :
  run (BackendApp.upload_image
         (Sample.world (Raises (ServiceError "provider unavailable"))
                       (Returns Sample.request))
         Sample.jpeg)
  = (Returns (ErrorObject
                (ErrorProcessingImage (ServiceError "provider unavailable"))),
     [ChatCall (ClassificationRequest "aW1hZ2U=")]).
Proof.
  refine (backend_classification_failure_ends_request
            (Sample.world (Raises (ServiceError "provider unavailable"))
                          (Returns Sample.request))
            Sample.jpeg "image/jpeg" "aW1hZ2U="
            (ServiceError "provider unavailable") _ _ _ _); reflexivity.
Defined.

Lemma serializer_fixed_order_witness :
  well_shaped Sample.card = true
  /\ create_vcf_content Sample.card
     = Returns (join nl ["BEGIN:VCARD"; "VERSION:3.0";
                         "N:Roe;Jane;;;"; "FN:Jane Roe";
                         "TITLE:Engineer"; "TITLE:Team Lead";
                         "ORG:Example Ltd";
                         "TEL;TYPE=CELL:+8801812345678";
                         "EMAIL:jane@example.org";
                         "ADR:;;1 Main Road, Dhaka 1207, Bangladesh";
                         "URL:https://example.org";
                         "END:VCARD"]).
Proof.
  split; [reflexivity|].
  exact (proj1 (proj2 (serializer_fixed_order Sample.card eq_refl))).
Defined.

Lemma name_split_at_first_space_witness :
  exists first last rest,
    vcf_lines [("name", PStr "Ada King Lovelace")]
    = Returns ("BEGIN:VCARD" :: "VERSION:3.0"
               :: ("N:" ++ last ++ ";" ++ first ++ ";;;")
               :: "FN:Ada King Lovelace" :: rest)
    /\ contains " " first = false.
Proof.
  destruct (proj2 name_split_at_first_space
                  [("name", PStr "Ada King Lovelace")] "Ada King Lovelace"
                  eq_refl eq_refl)
    as [first [last [rest [H [_ [Hf _]]]]]]; [discriminate|].
  exists first, last, rest. split; [exact H | exact Hf].
Defined.

Lemma fence_unwrapping_witness :
  startswith (strip (fenced name_A)) fence = true
  /\ contains "json" name_A = false
  /\ startswith (strip name_A) fence = false
  /\ unwrap_content (fenced name_A) = unwrap_content name_A
  /\ ~ ends_with_char (strip_chars backtick (strip (fenced name_A))) "`".
Proof.
  split; [reflexivity|]. split; [reflexivity|]. split; [reflexivity|]. split.
  - exact (proj1 (proj2 fence_unwrapping name_A eq_refl eq_refl)).
  - exact (proj1 (proj2 (proj2 (proj1 fence_unwrapping (fenced name_A)
                                      eq_refl)))).
Defined.

(** C5, the claim as worded fails. A backtick inside the wrapped text is
    kept by the parser although the wording removes every backtick; and a
    wrapped text that holds the letters [json] is cut after them, so that
    it is no longer read as the unwrapped text is. *)
Lemma fence_keeps_inner_backticks :
  startswith (strip (fenced name_with_backtick)) fence = true
  /\ unwrap_content (fenced name_with_backtick) = name_with_backtick
  /\ unwrap_all_backticks (fenced name_with_backtick)
     = "{" ++ dq ++ "name" ++ dq ++ ":" ++ dq ++ "ab" ++ dq ++ "}"
  /\ unwrap_content (fenced name_with_backtick)
     <> unwrap_all_backticks (fenced name_with_backtick)
  /\ unwrap_content (fenced url_with_json) = ".org" ++ dq ++ "}"
  /\ unwrap_content url_with_json = url_with_json
  /\ json_loads (unwrap_content (fenced url_with_json)) = None
  /\ json_loads (unwrap_content url_with_json)
     = Some (PDict [("url", PStr "json.org")]).
Proof.
  repeat split; try reflexivity. vm_compute. discriminate.
Qed.

Lemma vcf_endpoints_fail_on_unencodable_name_witness :
  json_loads Sample.bengali_request = Some (PDict Sample.bengali_card)
  /\ well_shaped Sample.bengali_card = true
  /\ fst (run (BackendApp.generate_vcf (Returns (PDict Sample.bengali_card))))
     = Returns {| BackendApp.content := ErrorObject (ExnText UnicodeEncodeError);
                  BackendApp.media_type := "application/json";
                  BackendApp.status_code := 500;
                  BackendApp.headers := [] |}
  /\ run (ApiGenerateVcf.do_POST (Returns Sample.bengali_request))
     = (Returns tt,
        [SendResponse 200;
         SendHeader "Content-type" "text/vcard";
         SendHeader "Access-Control-Allow-Origin" "*";
         SendResponse 500;
         SendHeader "Content-type" "application/json";
         SendHeader "Access-Control-Allow-Origin" "*";
         EndHeaders;
         WfileWrite (ErrorObject (ExnText UnicodeEncodeError))]).
Proof.
  split; [vm_compute; reflexivity|]. split; [reflexivity|].
  refine (vcf_endpoints_fail_on_unencodable_name
            Sample.bengali_request Sample.bengali_card Sample.bengali_name
            UnicodeEncodeError UnicodeEncodeError _ _ _ _ _ _);
    try (vm_compute; reflexivity).
  discriminate.
Defined.

Lemma classifier_yes_prefix_witness :
  classify "no" = NotCard
  /\ run (BackendApp.upload_image
            (Sample.world (Returns "no") (Returns Sample.request))
            Sample.jpeg)
     = (Returns (ErrorObject NotBusinessCard),
        [ChatCall (ClassificationRequest "aW1hZ2U=")]).
Proof.
  split; [reflexivity|].
  refine (proj1 (proj2 (proj2 (proj2 (proj2 (proj2 classifier_yes_prefix)))))
                (Sample.world (Returns "no") (Returns Sample.request))
                Sample.jpeg "image/jpeg" "aW1hZ2U=" "no" _ _ _ _ _);
    reflexivity.
Defined.

Lemma empty_field_like_absent_witness :
  dict_get "name" [("name", PStr ""); ("email", PStr "a@b.example")]
  = Some (PStr "")
  /\ create_vcf_content [("name", PStr ""); ("email", PStr "a@b.example")]
     = create_vcf_content
         (dict_remove "name"
            [("name", PStr ""); ("email", PStr "a@b.example")]).
Proof.
  split; [reflexivity|].
  refine (proj1 (proj2 (empty_field_like_absent
                          [("name", PStr ""); ("email", PStr "a@b.example")]
                          "name" _))).
  left. split; [simpl; tauto | reflexivity].
Defined.

Lemma serializer_total_on_shaped_witness :
  well_shaped Sample.card = true
  /\ exists text, create_vcf_content Sample.card = Returns text.
Proof.
  split; [reflexivity|].
  exact (proj1 serializer_total_on_shaped Sample.card eq_refl).
Defined.

(** C10, the claim as worded fails. A record whose titles are null meets
    the precondition "each field, when present and not null, has its
    declared shape", and the serializer raises on it. *)
Lemma null_titles_raise :
  shaped_unless_null [("name", PStr "John Doe"); ("titles", PNone)] = true
  /\ create_vcf_content [("name", PStr "John Doe"); ("titles", PNone)]
     = Raises TypeError.
Proof. split; reflexivity. Qed.

End Examples.

(* ================================================================= *)
(** ** Further properties of the upload handlers *)

Ltac crunch :=
  run_handler;
  repeat match goal with
         | |- context [match ?x with _ => _ end] =>
             lazymatch x with
             | context [match _ with _ => _ end] => fail
             | _ => destruct x eqn:?; run_handler
             end
         end.

Section UploadInvariants.
Context {E : Externals}.

(** The upload handler of [src/backend/app.py] always answers: whatever
    the file and whatever the outside calls do, it returns a body and
    raises nothing; it calls the model at most twice, the classification
    first and then, for the same image, the extraction. *)
Theorem backend_upload_always_answers
        (w : World) (file : BackendApp.UploadFile) :
  exists b t,
    run (BackendApp.upload_image w file) = (Returns b, t)
    /\ t = map ChatCall (chat_calls t)
    /\ calls_in_order (chat_calls t).
Proof.
  unfold calls_in_order. crunch; eexists; eexists;
    (split; [reflexivity|]); (split; [reflexivity|]); cbn [chat_calls];
    eauto.
Qed.

(** Before any call of the model the upload handler of
    [src/backend/app.py] gives up in three ways, each answered with an
    error object and none with a model call: no content type at all, a
    content type that does not start with "image/", and an image that
    cannot be re-encoded. *)
Theorem backend_upload_rejects_before_model
        (w : World) (file : BackendApp.UploadFile) :
  (BackendApp.content_type file = None ->
   run (BackendApp.upload_image w file)
   = (Returns (ErrorObject
                 (ErrorProcessingImage (AttributeError "startswith"))), []))
  /\ (forall ct,
        BackendApp.content_type file = Some ct ->
        startswith ct "image/" = false ->
        run (BackendApp.upload_image w file)
        = (Returns (ErrorObject
                      (Msg "Please upload a valid image file (JPG, PNG, etc.)")),
           []))
  /\ (forall ct e,
        BackendApp.content_type file = Some ct ->
        startswith ct "image/" = true ->
        jpeg_base64 w (BackendApp.file_bytes file) = Raises e ->
        run (BackendApp.upload_image w file)
        = (Returns (ErrorObject (ErrorProcessingImage e)), [])).
Proof.
  split; [|split].
  - intros H. run_handler. now run_with H.
  - intros ct H1 H2. run_handler. run_with H1. now run_with H2.
  - intros ct e H1 H2 H3. run_handler. run_with H1. run_with H2.
    now run_with H3.
Qed.

(** When the classifier says yes and the extraction answer decodes, both
    upload handlers hand the decoded value to the client as it is,
    whatever its shape. *)
Theorem upload_returns_decoded_value (w : World) (base64_img answer raw : string)
        (data : pyval) :
  chat_completions_create w (ClassificationRequest base64_img)
  = Returns answer ->
  startswith (is_card answer) "yes" = true ->
  chat_completions_create w (ExtractionRequest base64_img) = Returns raw ->
  json_loads (unwrap_content raw) = Some data ->
  (forall file ct,
     BackendApp.content_type file = Some ct ->
     startswith ct "image/" = true ->
     jpeg_base64 w (BackendApp.file_bytes file) = Returns base64_img ->
     run (BackendApp.upload_image w file)
     = (Returns (Data data),
        [ChatCall (ClassificationRequest base64_img);
         ChatCall (ExtractionRequest base64_img)]))
  /\ (forall req c image_data,
        ApiUpload.image_part req = Returns (Some (String c image_data)) ->
        Image_open w (String c image_data) = Returns tt ->
        jpeg_base64 w (String c image_data) = Returns base64_img ->
        run (ApiUpload.do_POST w req)
        = (Returns tt,
           (ok_headers
            ++ [ChatCall (ClassificationRequest base64_img);
                ChatCall (ExtractionRequest base64_img);
                WfileWrite (Data data)])%list)).
Proof.
  intros Hcls Hyes Hext Hjson. split.
  - intros file ct H1 H2 H3. run_handler. run_with H1. run_with H2.
    run_with H3. run_with Hcls. run_with Hyes. run_with Hext.
    now run_with Hjson.
  - intros req c image_data H1 H2 H3. run_handler. run_with H1. run_with H2.
    run_with H3. run_with Hcls. run_with Hyes. run_with Hext.
    now run_with Hjson.
Qed.

(** [do_POST] of [src/api/upload.py] always completes: after the status
    line 200 and the four headers it writes exactly one body, raises
    nothing, and calls the model at most twice, the classification first
    and then, for the same image, the extraction. *)
Theorem api_upload_writes_one_body
        (w : World) (req : ApiUpload.upload_request) :
  exists t,
    run (ApiUpload.do_POST w req) = (Returns tt, (ok_headers ++ t)%list)
    /\ List.length (writes t) = 1%nat
    /\ calls_in_order (chat_calls t).
Proof.
  unfold calls_in_order, ok_headers.
  crunch; eexists; (split; [reflexivity|]);
    cbn [writes chat_calls List.length]; (split; [reflexivity|]); eauto.
Qed.

(** [do_POST] of [src/api/upload.py] sends the status line 200 before it
    reads the request, so a failure met afterwards outside the inner
    handlers is answered with a second status line 500 behind the first.
    That happens exactly when reading the multipart body raises or when
    an image that opens cannot be re-encoded. *)
Theorem api_upload_second_status_line
        (w : World) (req : ApiUpload.upload_request) :
  In (SendResponse 500) (snd (run (ApiUpload.do_POST w req)))
  <-> ((exists e, ApiUpload.image_part req = Raises e)
       \/ (exists c image_data e,
             ApiUpload.image_part req = Returns (Some (String c image_data))
             /\ Image_open w (String c image_data) = Returns tt
             /\ jpeg_base64 w (String c image_data) = Raises e)).
Proof.
  crunch; cbn [snd In];
    (split;
     [ intros H;
       repeat (destruct H as [H|H]; [try discriminate H|]);
       try contradiction;
       try (left; eexists; reflexivity);
       try (right; do 3 eexists; repeat split;
            try eassumption; try reflexivity;
            match goal with u : unit |- _ => destruct u; assumption end)
     | intros [[? H]|[? [? [? [H1 [H2 H3]]]]]];
       try discriminate H;
       try (injection H1 as <- <-); try discriminate H1;
       try congruence; auto 12 ]).
Qed.

(** Without usable image data [do_POST] of [src/api/upload.py] never calls
    the model: a request without an image part, or with an empty one, is
    answered "No image data found", and data that does not open as an
    image "Invalid image format". *)
Theorem api_upload_without_image
        (w : World) (req : ApiUpload.upload_request) :
  (ApiUpload.image_part req = Returns None
   \/ ApiUpload.image_part req = Returns (Some "") ->
   run (ApiUpload.do_POST w req)
   = (Returns tt,
      (ok_headers
       ++ [WfileWrite (ErrorObject (Msg "No image data found"))])%list))
  /\ (forall c image_data e,
        ApiUpload.image_part req = Returns (Some (String c image_data)) ->
        Image_open w (String c image_data) = Raises e ->
        run (ApiUpload.do_POST w req)
        = (Returns tt,
           (ok_headers
            ++ [WfileWrite (ErrorObject (Msg "Invalid image format"))])%list)).
Proof.
  split.
  - intros [H|H]; run_handler; now run_with H.
  - intros c image_data e H1 H2. run_handler. run_with H1. now run_with H2.
Qed.

(** When the extraction call itself raises, the parser of
    [src/api/upload.py] wraps the failure as an "OpenAI API error", except
    that a decoding error raised by the call is taken for a malformed
    answer and gives the placeholder record. *)
Theorem api_extract_provider_failure
        (w : World) (base64_img : string) (e : exn) :
  chat_completions_create w (ExtractionRequest base64_img) = Raises e ->
  run (ApiUpload.extract_business_card_info w base64_img)
  = (match e with
     | JSONDecodeError => Returns ApiUpload.placeholder
     | _ => Raises (OpenAIAPIError e)
     end,
     [ChatCall (ExtractionRequest base64_img)]).
Proof. intros H. run_handler. run_with H. now destruct e. Qed.

End UploadInvariants.

(* ================================================================= *)
(** ** Further properties of the vCard endpoints *)

Section VCardEndpointInvariants.
Context {E : Externals} {Wi : Wire}.




End VCardEndpointInvariants.

(* ================================================================= *)
(** ** Further properties of the serializer and the normalizer *)

Section SerializerInvariants.
Context {E : Externals}.

Lemma prefix_single (a c : ascii) (s : string) :
  String.prefix (String a "") (String c s) = Ascii.eqb c a.
Proof.
  cbn [String.prefix]. destruct (ascii_dec a c) as [<-|Hn].
  - rewrite Ascii.eqb_refl. now destruct s.
  - symmetry. apply Ascii.eqb_neq. congruence.
Qed.

Lemma underscored_free (a : ascii) (name : string) :
  (a = " " \/ a = "/")%char ->
  contains (String a "") (underscored name) = false.
Proof.
  intros Ha. induction name as [|c s IH]; [reflexivity|].
  cbn [underscored contains]. rewrite prefix_single, IH, orb_false_r.
  destruct Ha as [-> | ->];
    destruct (Ascii.eqb c " ") eqn:H1, (Ascii.eqb c "/") eqn:H2;
    cbn [orb]; try reflexivity; assumption.
Qed.

(** The file name made from a name holds no space and no forward slash,
    is as long as the name, and is left alone when made again. *)
Theorem sanitize_removes_space_and_slash (name : string) :
  contains " " (sanitize name) = false
  /\ contains "/" (sanitize name) = false
  /\ String.length (sanitize name) = String.length name
  /\ sanitize (sanitize name) = sanitize name.
Proof.
  rewrite !sanitize_underscored.
  split; [apply underscored_free; auto|].
  split; [apply underscored_free; auto|]. split.
  - induction name as [|c s IH]; simpl; [reflexivity | now rewrite IH].
  - induction name as [|c s IH]; [reflexivity|].
    cbn [underscored]. rewrite IH. f_equal.
    destruct (Ascii.eqb c " ") eqn:H1, (Ascii.eqb c "/") eqn:H2;
      cbn [orb]; try reflexivity. now rewrite H1, H2.
Qed.

(** The normalizer treats every number on its own: the result for two
    lists one after the other is the result for the first followed by the
    result for the second. *)
Theorem normalizer_distributes_over_append
        (a b : list pyval) (default_region : string) :
  exists x y,
    normalize_phone_numbers (PList a) default_region = Returns x
    /\ normalize_phone_numbers (PList b) default_region = Returns y
    /\ normalize_phone_numbers (PList (a ++ b)) default_region
       = Returns (x ++ y)%list.
Proof.
  exists (normalized default_region a), (normalized default_region b).
  rewrite !normalize_list. repeat split.
  unfold normalized. now rewrite filter_app, map_app.
Qed.

Lemma join_cons (sep x : string) (l : list string) :
  l <> [] -> join sep (x :: l) = x ++ sep ++ join sep l.
Proof. destruct l; [now intros H; elim H | reflexivity]. Qed.

Lemma tagged_intro (tag x : string) :
  In tag line_tags -> tagged (tag ++ x) = true.
Proof.
  unfold line_tags. cbn [In]. intros H.
  repeat (destruct H as [<-|H]; [now destruct x|]). contradiction.
Qed.

Lemma present_tagged (tag k : string) (d : dict) :
  In tag line_tags -> Forall (fun l => tagged l = true) (present tag k d).
Proof.
  intros Ht. unfold present. destruct (get_truthy k d); [|constructor].
  constructor; [now apply tagged_intro | constructor].
Qed.

(** Whenever the serializer returns, for any dictionary at all, its first
    two lines are BEGIN:VCARD and VERSION:3.0, its last line is END:VCARD,
    and every line in between starts with one of the eight property tags;
    the returned text starts with the two header lines. *)
Theorem vcard_is_framed_and_tagged (d : dict) (lines : list string) :
  vcf_lines d = Returns lines ->
  exists mid,
    lines = ("BEGIN:VCARD" :: "VERSION:3.0" :: mid ++ ["END:VCARD"])%list
    /\ Forall (fun l => tagged l = true) mid
    /\ exists rest,
        create_vcf_content d
        = Returns ("BEGIN:VCARD" ++ nl ++ "VERSION:3.0" ++ nl ++ rest).
Proof.
  intros Hl. pose proof Hl as Hg. rewrite vcf_lines_groups in Hg.
  destruct (name_part d) as [n|] eqn:Hn; [|discriminate]. cbn [obind] in Hg.
  destruct (py_iter _) as [titles|] eqn:Ht; [|discriminate].
  cbn [obind] in Hg.
  destruct (normalize_phone_numbers _ _) as [phones|] eqn:Hp; [|discriminate].
  cbn [obind] in Hg. injection Hg as <-.
  unfold vcf_groups in *. cbn [List.concat app] in *.
  eexists. split; [rewrite !app_assoc; reflexivity|]. split.
  - rewrite !Forall_app. repeat split;
      try (apply present_tagged; simpl; tauto).
    + destruct (name_part_lines d n Hn) as [->|[x [y ->]]]; [constructor|].
      repeat constructor; apply tagged_intro; simpl; tauto.
    + apply Forall_forall. intros l Hin.
      apply in_map_iff in Hin as [x [<- _]]. apply tagged_intro; simpl; tauto.
    + apply Forall_forall. intros l Hin.
      apply in_map_iff in Hin as [x [<- _]]. apply tagged_intro; simpl; tauto.
  - rewrite (create_of_lines _ _ Hl), !app_assoc, <- !app_assoc.
    rewrite !app_assoc.
    match goal with
    | |- context [("BEGIN:VCARD" :: "VERSION:3.0" :: ?m ++ ["END:VCARD"])%list] =>
        exists (join nl (m ++ ["END:VCARD"])%list);
        rewrite (join_cons nl "BEGIN:VCARD") by discriminate;
        rewrite (join_cons nl "VERSION:3.0") by (now destruct m)
    end.
    reflexivity.
Qed.

End SerializerInvariants.

(* ================================================================= *)
(** ** Properties of the multipart scan and of the unwrapping *)

Section MultipartProperties.
Import Multipart.
Context {E : Externals}.

Lemma drop_last_snoc (s : string) :
  s <> "" -> exists c, s = drop_last s ++ String c "".
Proof.
  induction s as [|a s IH]; intros H; [now elim H|].
  destruct s as [|b s]; [now exists a|].
  destruct IH as [c Hc]; [discriminate|]. exists c.
  change (drop_last (String a (String b s)))
    with (String a (drop_last (String b s))).
  cbn [append]. now rewrite <- Hc.
Qed.

Lemma prefix_app_long (p a b : string) :
  (String.length p <= String.length a)%nat ->
  String.prefix p (a ++ b) = String.prefix p a.
Proof.
  revert a. induction p as [|c p IH]; intros a H.
  - now destruct a, b.
  - destruct a as [|d a]; [simpl in H; lia|].
    cbn [append String.prefix]. destruct (ascii_dec c d); [|reflexivity].
    apply IH. simpl in H. lia.
Qed.

(** With no occurrence of [sep] starting inside [x], the first occurrence
    in [x ++ sep ++ rest] is the one after [x]. *)
Lemma prefix_blocked (sep x rest : string) (a : ascii) :
  sep <> "" ->
  String.prefix sep (String a x ++ drop_last sep) = false ->
  String.prefix sep (String a x ++ sep ++ rest) = false.
Proof.
  intros Hne Hp. destruct (drop_last_snoc sep Hne) as [c Hc].
  rewrite Hc at 2. rewrite append_assoc, <- append_assoc.
  rewrite prefix_app_long; [exact Hp|].
  rewrite Hc at 1. rewrite !length_append. simpl. lia.
Qed.

Lemma split_first (sep x rest : string) :
  sep <> "" -> free_of sep x = true ->
  split sep None (x ++ sep ++ rest) = x :: split sep None rest.
Proof.
  intros Hne Hf. apply negb_true_iff in Hf.
  induction x as [|a x IH].
  - destruct sep as [|c sep]; [now elim Hne|]. apply split_prefix.
  - cbn [append contains] in Hf. apply orb_false_iff in Hf as [Hp Hc].
    pose proof (prefix_blocked sep x rest a Hne Hp) as Hb.
    change (String a x ++ sep ++ rest) with (String a (x ++ sep ++ rest)) in *.
    unfold split in *. cbn [split_from can_split andb].
    now rewrite Hb, (IH Hc).
Qed.

Lemma find_index_first (sep x rest : string) :
  sep <> "" -> free_of sep x = true ->
  find_index sep (x ++ sep ++ rest) = Some (String.length x).
Proof.
  intros Hne Hf. apply negb_true_iff in Hf.
  induction x as [|a x IH].
  - cbn [append]. destruct (sep ++ rest) eqn:Hs.
    + destruct sep; [now elim Hne | discriminate].
    + cbn [find_index]. now rewrite <- Hs, prefix_append.
  - cbn [append contains] in Hf. apply orb_false_iff in Hf as [Hp Hc].
    pose proof (prefix_blocked sep x rest a Hne Hp) as Hb.
    change (String a x ++ sep ++ rest) with (String a (x ++ sep ++ rest)) in *.
    cbn [find_index]. now rewrite Hb, (IH Hc).
Qed.

Lemma find_index_absent (sep s : string) :
  contains sep s = false -> find_index sep s = None.
Proof.
  induction s as [|a s IH]; cbn [contains find_index]; intros H;
    apply orb_false_iff in H as [Hp Hc]; rewrite Hp; [reflexivity|].
  now rewrite (IH Hc).
Qed.

Lemma substring_middle (a b c : string) :
  substring (String.length a) (String.length b) (a ++ b ++ c) = b.
Proof.
  induction a as [|x a IH]; [|exact IH].
  cbn [String.length append]. induction b as [|y b IHb].
  - now destruct c.
  - cbn [String.length append substring]. now rewrite IHb.
Qed.

Lemma contains_split (sub s : string) :
  contains sub s = true -> exists u v, s = u ++ sub ++ v.
Proof.
  induction s as [|a s IH]; cbn [contains]; intros H;
    apply orb_true_iff in H as [H|H].
  - destruct (prefix_split _ _ H) as [r Hr]. now exists "", r.
  - discriminate.
  - destruct (prefix_split _ _ H) as [r Hr]. now exists "", r.
  - destruct (IH H) as [u [v ->]]. now exists (String a u), v.
Qed.

Lemma contains_inside (sub a s b : string) :
  contains sub s = true -> contains sub (a ++ s ++ b) = true.
Proof.
  intros H. destruct (contains_split _ _ H) as [u [v ->]].
  replace (a ++ (u ++ sub ++ v) ++ b) with ((a ++ u) ++ sub ++ (v ++ b))
    by (now rewrite !append_assoc).
  apply contains_intro.
Qed.

Lemma separator_not_empty (boundary : string) :
  encode_utf8 ("--" ++ boundary) <> "".
Proof. discriminate. Qed.

(** The scan gives back the image of a well-formed body.  When the body
    holds, between two boundary lines, a part made of headers that name an
    image content type, a blank line, the data and a line end, when what
    precedes that part names no image content type, and when the boundary
    occurs in neither and the headers hold no blank line, the scan returns
    exactly the data. *)
Theorem image_part_round_trip (boundary pre headers data tail : string) :
  let sep := encode_utf8 ("--" ++ boundary) in
  let part := crlf ++ headers ++ blank_line ++ data ++ crlf in
  free_of sep pre = true ->
  contains image_marker pre = false ->
  free_of sep part = true ->
  contains image_marker headers = true ->
  free_of blank_line (crlf ++ headers) = true ->
  find_image_part boundary (pre ++ sep ++ part ++ sep ++ tail) = Some data.
Proof.
  intros sep part Hpre Hpm Hpart Hm Hh. unfold find_image_part. fold sep.
  pose proof (separator_not_empty boundary) as Hne. fold sep in Hne.
  rewrite (split_first sep pre _ Hne Hpre).
  rewrite (split_first sep part _ Hne Hpart).
  cbn [image_data_of_parts]. rewrite Hpm.
  assert (Hc : contains image_marker part = true).
  { unfold part. apply contains_inside with (a := crlf). exact Hm. }
  rewrite Hc. f_equal.
  assert (Hshape : part = (crlf ++ headers) ++ blank_line ++ data ++ crlf)
    by (unfold part; now rewrite !append_assoc).
  unfold find. rewrite Hshape at 1.
  rewrite (find_index_first blank_line (crlf ++ headers) _) by
    (discriminate || exact Hh).
  unfold slice_to_last2.
  replace (Z.to_nat (Z.of_nat (String.length (crlf ++ headers)) + 4))
    with (String.length ((crlf ++ headers) ++ blank_line))
    by (rewrite length_append; simpl String.length; lia).
  replace (String.length part - 2
           - String.length ((crlf ++ headers) ++ blank_line))%nat
    with (String.length data).
  - rewrite Hshape.
    replace ((crlf ++ headers) ++ blank_line ++ data ++ crlf)
      with (((crlf ++ headers) ++ blank_line) ++ data ++ crlf)
      by (now rewrite !append_assoc).
    apply substring_middle.
  - rewrite Hshape, !length_append. simpl String.length. lia.
Qed.

(** A part that names an image content type but holds no blank line is
    not refused: the search for the blank line gives -1, so the scan takes
    the part from its fourth character up to two before its end as the
    image data. *)
Theorem image_part_without_blank_line (part : string) (rest : list string) :
  contains image_marker part = true ->
  contains blank_line part = false ->
  image_data_of_parts (part :: rest)
  = Some (substring 3 (String.length part - 5) part).
Proof.
  intros Hm Hb. cbn [image_data_of_parts]. rewrite Hm.
  unfold find. rewrite (find_index_absent _ _ Hb).
  unfold slice_to_last2. change (Z.to_nat (-1 + 4)) with 3%nat.
  do 2 f_equal. lia.
Qed.

Lemma no_marker_no_data (parts : list string) :
  Forall (fun part => contains image_marker part = false) parts ->
  image_data_of_parts parts = None.
Proof.
  induction 1 as [|part parts Hp _ IH]; [reflexivity|].
  cbn [image_data_of_parts]. now rewrite Hp.
Qed.

(** A body in which no part between the boundaries names an image content
    type is answered "No image data found", and the model is not
    called. *)
Theorem api_upload_no_image_part
        (w : World) (req : ApiUpload.upload_request)
        (boundary raw_data : string) :
  ApiUpload.image_part req = Returns (find_image_part boundary raw_data) ->
  Forall (fun part => contains image_marker part = false)
         (split (encode_utf8 ("--" ++ boundary)) None raw_data) ->
  run (ApiUpload.do_POST w req)
  = (Returns tt,
     (ok_headers
      ++ [WfileWrite (ErrorObject (Msg "No image data found"))])%list).
Proof.
  intros Hreq Hparts. unfold find_image_part in Hreq.
  rewrite (no_marker_no_data _ Hparts) in Hreq.
  run_handler. now run_with Hreq.
Qed.

(** The boundary read off the Content-Type header is all that follows the
    first "boundary=", further parameters included, as long as no second
    "boundary=" follows; a header without "boundary=" gives none. *)
Theorem boundary_of_header (content_type : string) :
  (contains "boundary=" content_type = false ->
   boundary_of content_type = None)
  /\ (forall kind boundary,
        content_type = kind ++ "boundary=" ++ boundary ->
        free_of "boundary=" kind = true ->
        contains "boundary=" boundary = false ->
        boundary_of content_type = Some boundary).
Proof.
  unfold boundary_of. split.
  - intros H. now rewrite (split_absent _ _ H).
  - intros kind boundary -> Hk Hb.
    rewrite (split_first "boundary=" kind boundary) by (discriminate || exact Hk).
    now rewrite (split_absent _ _ Hb).
Qed.

(** The text handed to [json.loads] never starts and never ends with a
    white-space character. *)
Theorem unwrap_content_is_trimmed (raw : string) :
  (forall c rest, unwrap_content raw = String c rest -> is_space c = false)
  /\ (forall c, ends_with_char (unwrap_content raw) c -> is_space c = false).
Proof.
  unfold unwrap_content.
  destruct (startswith (strip raw) fence); apply strip_by_ends.
Qed.

End MultipartProperties.

(* ================================================================= *)
(** ** Ill-typed list fields and the size of the card *)

Section ListFieldProperties.
Context {E : Externals}.

Lemma dict_get_set (k k' : string) (v : pyval) (d : dict) :
  dict_get k' (dict_set k v d)
  = if String.eqb k' k then Some v else dict_get k' d.
Proof.
  induction d as [|[k0 v0] d IH]; simpl.
  - now destruct (String.eqb k' k).
  - destruct (String.eqb k k0) eqn:Hk; simpl.
    + apply String.eqb_eq in Hk as <-. now destruct (String.eqb k' k).
    + rewrite IH. destruct (String.eqb k' k0) eqn:Hk0; [|reflexivity].
      apply String.eqb_eq in Hk0 as ->.
      rewrite String.eqb_sym in Hk. now rewrite Hk.
Qed.

Lemma vcf_lines_iterated (d1 d2 : dict) :
  (forall k, In k string_fields -> get_truthy k d1 = get_truthy k d2) ->
  (forall k, In k list_fields ->
             py_iter (dict_get_default k (PList []) d1)
             = py_iter (dict_get_default k (PList []) d2)) ->
  vcf_lines d1 = vcf_lines d2.
Proof.
  intros Hs Hl. unfold vcf_lines, append_if_present, normalize_phone_numbers.
  rewrite (Hs "name"), (Hs "organization"), (Hs "email"), (Hs "address"),
    (Hs "url"), (Hl "titles"), (Hl "phone_numbers");
    try reflexivity; simpl; tauto.
Qed.

(** A string given where a list is expected is not refused: for titles
    and for phone_numbers the serializer treats the string as the list of
    its characters, one title line, or one candidate phone number, per
    character. *)
Theorem string_for_list_field_is_iterated (d : dict) (k s : string) :
  In k list_fields ->
  dict_get k d = Some (PStr s) ->
  vcf_lines d = vcf_lines (dict_set k (PList (chars_of s)) d)
  /\ create_vcf_content d
     = create_vcf_content (dict_set k (PList (chars_of s)) d).
Proof.
  intros Hk Hd.
  assert (H : vcf_lines d = vcf_lines (dict_set k (PList (chars_of s)) d)).
  { apply vcf_lines_iterated; intros k' Hk'.
    - unfold get_truthy. rewrite dict_get_set.
      destruct (String.eqb k' k) eqn:Hkk; [|reflexivity].
      apply String.eqb_eq in Hkk as ->. exfalso.
      revert Hk Hk'. unfold string_fields, list_fields. simpl.
      intuition (subst; discriminate).
    - unfold dict_get_default. rewrite dict_get_set.
      destruct (String.eqb k' k) eqn:Hkk; [|reflexivity].
      apply String.eqb_eq in Hkk as ->. now rewrite Hd. }
  split; [exact H|]. unfold create_vcf_content. now rewrite H.
Qed.

Lemma optional_line_length (tag : string) (v : option string) :
  (List.length (optional_line tag v) <= 1)%nat.
Proof. destruct v; simpl; lia. Qed.

(** The card of a record of the declared shape has at least three lines
    and at most nine plus one for each title and each phone number. *)
Theorem vcard_line_count (d : dict) :
  well_shaped d = true ->
  exists lines,
    vcf_lines d = Returns lines
    /\ (3 <= List.length lines
        <= 9 + List.length (list_field "titles" d)
           + List.length (list_field "phone_numbers" d))%nat.
Proof.
  intros Hd. exists (vcard_layout d). split; [now apply vcf_lines_shaped|].
  unfold vcard_layout. cbn [List.concat].
  rewrite !length_app, !length_map. cbn [List.length].
  pose proof (optional_line_length "ORG:" (str_field "organization" d)).
  pose proof (optional_line_length "EMAIL:" (str_field "email" d)).
  pose proof (optional_line_length "ADR:;;" (str_field "address" d)).
  pose proof (optional_line_length "URL:" (str_field "url" d)).
  assert (Hn : (List.length (name_lines (str_field "name" d)) <= 2)%nat).
  { unfold name_lines. destruct (str_field "name" d) as [name|]; [|simpl; lia].
    destruct (split_first_space name). simpl. lia. }
  assert (Hp : (List.length
                  (filter (survives "BD")
                          (map PStr (list_field "phone_numbers" d)))
                <= List.length (list_field "phone_numbers" d))%nat).
  { rewrite <- (length_map PStr (list_field "phone_numbers" d)).
    apply filter_length_le. }
  unfold normalized. rewrite length_map. lia.
Qed.

End ListFieldProperties.

(* ================================================================= *)
(** ** The further properties at concrete requests *)

Section MoreExamples.
Import Multipart.

Local Existing Instance Sample.externals.
Local Existing Instance Sample.wire.



Lemma backend_upload_rejects_before_model_witness :
  run (BackendApp.upload_image
         (Sample.world (Returns "yes") (Returns Sample.request))
         {| BackendApp.content_type := Some "text/plain";
            BackendApp.file_bytes := "bytes" |})
  = (Returns (ErrorObject
                (Msg "Please upload a valid image file (JPG, PNG, etc.)")),
     []).
Proof.
  refine (proj1 (proj2 (backend_upload_rejects_before_model _ _))
                "text/plain" _ _); reflexivity.
Defined.

Lemma upload_returns_decoded_value_witness :
  run (BackendApp.upload_image
         (Sample.world (Returns "Yes") (Returns (fenced Sample.request)))
         Sample.jpeg)
  = (Returns (Data (PDict [("name", PStr "Jane Roe");
                           ("phone_numbers", PList [PStr "01812345678"])])),
     [ChatCall (ClassificationRequest "aW1hZ2U=");
      ChatCall (ExtractionRequest "aW1hZ2U=")]).
Proof.
  refine (proj1 (upload_returns_decoded_value
                   (Sample.world (Returns "Yes")
                                 (Returns (fenced Sample.request)))
                   "aW1hZ2U=" "Yes" (fenced Sample.request) _ _ _ _ _)
                Sample.jpeg "image/jpeg" _ _ _); reflexivity.
Defined.

Lemma api_upload_without_image_witness :
  run (ApiUpload.do_POST
         (Sample.world (Returns "yes") (Returns Sample.request))
         {| ApiUpload.image_part := Returns None |})
  = (Returns tt,
     (ok_headers
      ++ [WfileWrite (ErrorObject (Msg "No image data found"))])%list).
Proof.
  refine (proj1 (api_upload_without_image _ _) _). now left.
Defined.

Lemma api_extract_provider_failure_witness :
  run (ApiUpload.extract_business_card_info
         (Sample.world (Returns "yes") (Raises (ServiceError "timeout")))
         "aW1hZ2U=")
  = (Raises (OpenAIAPIError (ServiceError "timeout")),
     [ChatCall (ExtractionRequest "aW1hZ2U=")]).
Proof.
  exact (api_extract_provider_failure
           (Sample.world (Returns "yes") (Raises (ServiceError "timeout")))
           "aW1hZ2U=" (ServiceError "timeout") eq_refl).
Defined.

Lemma vcard_is_framed_and_tagged_witness :
  exists lines mid,
    vcf_lines Sample.card = Returns lines
    /\ lines = ("BEGIN:VCARD" :: "VERSION:3.0" :: mid ++ ["END:VCARD"])%list
    /\ Forall (fun l => tagged l = true) mid.
Proof.
  assert (H : vcf_lines Sample.card = Returns (vcard_layout Sample.card))
    by (vm_compute; reflexivity).
  destruct (vcard_is_framed_and_tagged Sample.card (vcard_layout Sample.card) H)
    as [mid [H1 [H2 _]]].
  exists (vcard_layout Sample.card), mid. split; [exact H|]. now split.
Defined.

Lemma image_part_round_trip_witness :
  find_image_part "XyZ" (one_image_body "XyZ" "PNGDATA") = Some "PNGDATA".
Proof.
  refine (image_part_round_trip "XyZ" "" part_headers "PNGDATA"
                                ("--" ++ crlf) _ _ _ _ _); reflexivity.
Defined.

Lemma image_part_without_blank_line_witness :
  image_data_of_parts [crlf ++ "Content-Type: image/png" ++ crlf ++ "abcdef"]
  = Some ("ontent-Type: image/png" ++ crlf ++ "abcd").
Proof.
  refine (image_part_without_blank_line
            (crlf ++ "Content-Type: image/png" ++ crlf ++ "abcdef") [] _ _);
    reflexivity.
Defined.

Lemma api_upload_no_image_part_witness :
  run (ApiUpload.do_POST
         (Sample.world (Returns "yes") (Returns Sample.request))
         {| ApiUpload.image_part :=
              Returns (find_image_part
                         "XyZ"
                         ("--XyZ" ++ crlf
                          ++ "Content-Disposition: form-data; name=note"
                          ++ blank_line ++ "hello" ++ crlf
                          ++ "--XyZ--" ++ crlf)) |})
  = (Returns tt,
     (ok_headers
      ++ [WfileWrite (ErrorObject (Msg "No image data found"))])%list).
Proof.
  refine (api_upload_no_image_part
            _ _ "XyZ"
            ("--XyZ" ++ crlf ++ "Content-Disposition: form-data; name=note"
             ++ blank_line ++ "hello" ++ crlf ++ "--XyZ--" ++ crlf) _ _);
    [reflexivity | vm_compute; repeat constructor].
Defined.

Lemma boundary_of_header_witness :
  boundary_of "multipart/form-data; boundary=XyZ; charset=utf-8"
  = Some "XyZ; charset=utf-8".
Proof.
  refine (proj2 (boundary_of_header _) "multipart/form-data; "
                "XyZ; charset=utf-8" _ _ _); reflexivity.
Defined.

Lemma unwrap_content_is_trimmed_witness :
  is_space "{" = false.
Proof.
  refine (proj1 (unwrap_content_is_trimmed ("  " ++ name_A ++ nl))
                "{"%char (dq ++ "name" ++ dq ++ ":" ++ dq ++ "A" ++ dq ++ "}")
                _).
  reflexivity.
Defined.

Lemma string_for_list_field_is_iterated_witness :
  create_vcf_content [("name", PStr "Jane Roe"); ("titles", PStr "CEO")]
  = Returns (join nl ["BEGIN:VCARD"; "VERSION:3.0"; "N:Roe;Jane;;;";
                      "FN:Jane Roe"; "TITLE:C"; "TITLE:E"; "TITLE:O";
                      "END:VCARD"]).
Proof.
  rewrite (proj2 (string_for_list_field_is_iterated
                    [("name", PStr "Jane Roe"); ("titles", PStr "CEO")]
                    "titles" "CEO" (or_introl eq_refl) eq_refl)).
  reflexivity.
Defined.

Lemma vcard_line_count_witness :
  exists lines,
    vcf_lines Sample.card = Returns lines
    /\ (3 <= List.length lines <= 9 + 2 + 2)%nat.
Proof.
  exact (vcard_line_count Sample.card eq_refl).
Defined.

End MoreExamples.
